(** * Title 21 regulation search: classifier, store refresh, keyword and
      vector search

    A shallow embedding of the decision logic of [app.py], [llm_service.py]
    and [rag_service.py], and the properties of it that the specification
    relies on.

    Conventions of the embedding.
    - Python text is a [string]; one character of the model stands for one
      code point below 256, and [lower] acts on the letters A-Z.
    - A Python value that can sit in a regulation dict or a database cell is
      a [pyval]: [None], a [str] or an [int].  Dicts are finite maps from
      key names to values; where the order of the keys matters (the
      [combined] dict of the hybrid merge) a dict is an association list.
    - Code that can raise returns a [res]; [Raise] carries the exception.
      Code that also uses a database connection is an [M].
    - Floating point scores and distances are rationals, so sums and
      comparisons of scores are exact where the code rounds; a search result
      is a dict whose values are regulation fields or scores.
    - Collaborators that are not part of the repository (the HTTP session,
      the chat completion client, the sentence embedder, the nearest
      neighbour search of FAISS) are fields of the object that owns them in
      the source.  Time stamps and the files that mirror the vector index
      on disk are left out.

    The definitions come first, module by module in the order of the data
    flow; the properties follow. *)

From Stdlib Require Import ZArith QArith Qabs String Ascii List Bool Lia.
From Stdlib Require Import DecimalString Sorting.Permutation Sorting.Sorted.
From stdpp Require Import base option list gmap strings fin_maps.

Set Warnings "-abstract-large-number".

Local Open Scope string_scope.
Local Open Scope list_scope.

(** ** Python values, exceptions and text primitives *)

Module Py.

Inductive pyval : Type :=
| PyNone
| PyStr (s : string)
| PyInt (n : Z).

#[global] Instance pyval_eq_dec : EqDecision pyval.
Proof. solve_decision. Defined.

(** An exception: its class name and its message ([str(e)]). *)
Record exn : Type := Exn { exn_type : string; exn_msg : string }.

Inductive res (A : Type) : Type :=
| Ok (a : A)
| Raise (e : exn).
Arguments Ok {A} a.
Arguments Raise {A} e.

Definition bind {A B} (m : res A) (f : A -> res B) : res B :=
  match m with
  | Ok a => f a
  | Raise e => Raise e
  end.

Notation "x <- m ;; k" := (bind m (fun x => k))
  (at level 100, m at next level, right associativity).
(** [try: body except Exception: handler]. *)
Definition try_except {A} (body : res A) (handler : exn -> res A) : res A :=
  match body with
  | Ok a => Ok a
  | Raise e => handler e
  end.

Definition raised {A} (r : res A) : bool :=
  match r with Ok _ => false | Raise _ => true end.

(** The name of a value's type, as it appears in error messages. *)
Definition type_name (v : pyval) : string :=
  match v with
  | PyNone => "NoneType"
  | PyStr _ => "str"
  | PyInt _ => "int"
  end.

Definition AttributeError (v : pyval) (attr : string) : exn :=
  Exn "AttributeError"
      ("'" +:+ type_name v +:+ "' object has no attribute '" +:+ attr +:+ "'").

Definition NotSubscriptable (v : pyval) : exn :=
  Exn "TypeError" ("'" +:+ type_name v +:+ "' object is not subscriptable").

Definition IndexError : exn := Exn "IndexError" "list index out of range".

(** [bool(v)]. *)
Definition truthy (v : pyval) : bool :=
  match v with
  | PyNone => false
  | PyStr s => negb (String.eqb s "")
  | PyInt n => negb (Z.eqb n 0)
  end.

Definition string_of_nat (n : nat) : string :=
  NilEmpty.string_of_uint (Nat.to_uint n).

Definition string_of_Z (n : Z) : string :=
  NilZero.string_of_int (Z.to_int n).

(** [str(v)], also what an f-string substitutes for [{v}]. *)
Definition str (v : pyval) : string :=
  match v with
  | PyNone => "None"
  | PyStr s => s
  | PyInt n => string_of_Z n
  end.

(** [a or b]. *)
Definition py_or (a b : pyval) : pyval := if truthy a then a else b.

(** [d.get(k, default)]. *)
Definition get (d : gmap string pyval) (k : string) (dflt : pyval) : pyval :=
  default dflt (d !! k).

(** [d.setdefault(k, v)] for its effect on [d]. *)
Definition setdefault (k : string) (v : pyval) (d : gmap string pyval)
  : gmap string pyval :=
  match d !! k with
  | Some _ => d
  | None => <[k := v]> d
  end.

(** *** Text *)

Definition lower_ascii (c : ascii) : ascii :=
  let n := N_of_ascii c in
  if (65 <=? n)%N && (n <=? 90)%N then ascii_of_N (n + 32) else c.

Fixpoint lower (s : string) : string :=
  match s with
  | EmptyString => EmptyString
  | String c s' => String (lower_ascii c) (lower s')
  end.

(** [str.isspace] on one character: tab, line feed, vertical tab, form feed,
    carriage return, the four separators 28-31, the space, next line (133)
    and the no-break space (160). *)
Definition is_space (c : ascii) : bool :=
  let n := N_of_ascii c in
  ((9 <=? n)%N && (n <=? 13)%N) || ((28 <=? n)%N && (n <=? 32)%N)
  || (n =? 133)%N || (n =? 160)%N.

Fixpoint lstrip (s : string) : string :=
  match s with
  | EmptyString => EmptyString
  | String c s' => if is_space c then lstrip s' else s
  end.

Fixpoint rstrip (s : string) : string :=
  match s with
  | EmptyString => EmptyString
  | String c s' =>
      match rstrip s' with
      | EmptyString => if is_space c then EmptyString else String c EmptyString
      | r => String c r
      end
  end.

Definition strip (s : string) : string := rstrip (lstrip s).

(** [s.startswith(p)]. *)
Fixpoint startswith (p s : string) : bool :=
  match p, s with
  | EmptyString, _ => true
  | String a p', String b s' => Ascii.eqb a b && startswith p' s'
  | String _ _, EmptyString => false
  end.

(** [kw in s]. *)
Fixpoint contains (kw s : string) : bool :=
  startswith kw s ||
  match s with
  | EmptyString => false
  | String _ s' => contains kw s'
  end.

(** [s[:n]] for [0 <= n]. *)
Fixpoint take (n : nat) (s : string) : string :=
  match n, s with
  | O, _ => EmptyString
  | S _, EmptyString => EmptyString
  | S n', String c s' => String c (take n' s')
  end.

(** [s.split(sep)] for a non-empty [sep]: [skip] counts the characters of
    a separator just matched that are still to be passed over, [cur] is the
    piece being collected. *)
Fixpoint split_go (sep s : string) (skip : nat) (cur : string) : list string :=
  match s with
  | EmptyString => [cur]
  | String c s' =>
      match skip with
      | S k => split_go sep s' k cur
      | O =>
          if startswith sep s
          then cur :: split_go sep s' (String.length sep - 1) EmptyString
          else split_go sep s' 0 (cur +:+ String c EmptyString)
      end
  end.

Definition split (sep s : string) : list string := split_go sep s 0 EmptyString.

(** [x in [a, b, ...]] on text. *)
Definition in_list (x : string) (l : list string) : bool :=
  existsb (String.eqb x) l.

(** [any(kw in s for kw in kws)]. *)
Definition any_in (kws : list string) (s : string) : bool :=
  existsb (fun kw => contains kw s) kws.

(** [sum(1 for kw in kws if kw in s)]. *)
Definition count_in (kws : list string) (s : string) : nat :=
  length (List.filter (fun kw => contains kw s) kws).

(** Methods and subscripts that exist on [str] only. *)
Definition py_lower (v : pyval) : res string :=
  match v with
  | PyStr s => Ok (lower s)
  | _ => Raise (AttributeError v "lower")
  end.

Definition py_startswith (v : pyval) (p : string) : res bool :=
  match v with
  | PyStr s => Ok (startswith p s)
  | _ => Raise (AttributeError v "startswith")
  end.

Definition py_take (n : nat) (v : pyval) : res string :=
  match v with
  | PyStr s => Ok (take n s)
  | _ => Raise (NotSubscriptable v)
  end.

End Py.
Import Py.

(** ** [llm_service.py]: the optional external classifier *)

Module Llm.

Definition newline : string := String "010"%char EmptyString.

(** [l[i]] on a list. *)
Definition item {A} (l : list A) (i : nat) : res A :=
  match l !! i with
  | Some x => Ok x
  | None => Raise IndexError
  end.

Record LLMRegulationAnalyzer : Type := {
  enabled : bool;
  (** [client.chat.completions.create(...).choices[0].message.content] for
      the prompt that is built from the description, the url and the
      content text; [Raise] when the request fails. *)
  chat_completion : string -> string -> string -> res string
}.

(** "Normalize status values". *)
Definition normalize_status (status : string) : string :=
  let status_lower := lower status in
  if contains "prohibit" status_lower then "Prohibited"
  else if contains "compliance" status_lower || contains "requirement" status_lower
  then "Requires Compliance"
  else if contains "reserved" status_lower then "Reserved"
  else if contains "administrative" status_lower || contains "admin" status_lower
  then "Administrative"
  else "Unknown".

(** "Parse response": the STATUS: and REASON: lines of the reply. *)
Definition parse_response (result : string) : res (string * string) :=
  status <- (if contains "STATUS:" result then
               status_line <-
                 item (List.filter (contains "STATUS:") (split newline result)) 0 ;;
               status <- item (split "STATUS:" status_line) 1 ;;
               Ok (normalize_status (strip status))
             else Ok "Unknown") ;;
  reason <- (if contains "REASON:" result then
               reason_line <-
                 item (List.filter (contains "REASON:") (split newline result)) 0 ;;
               reason <- item (split "REASON:" reason_line) 1 ;;
               Ok (strip reason)
             else Ok "Analysis completed") ;;
  Ok (status, reason).

Definition analyze_regulation_status (self : LLMRegulationAnalyzer)
    (description url content : pyval) : string * string :=
  if negb (enabled self) then ("Unknown", "LLM not configured")
  else
    match
      (content_text <- (if truthy content then py_take 3000 content
                        else Ok "No content available") ;;
       response <- chat_completion self (str description) (str url) content_text ;;
       parse_response (strip response))
    with
    | Ok r => r
    | Raise e => ("Unknown", "LLM analysis failed: " +:+ exn_msg e)
    end.

End Llm.

(** ** [RegulationScraper.analyze_regulation_status]: the status classifier *)

Module Classifier.

(** What [self.session.get(url)] and the main-content heuristics deliver:
    an exception anywhere in the [try] block, a status code other than 200,
    or a page with the text of its main content element (if one was found)
    and the joined text of its first twenty paragraphs. *)
Inductive http_result : Type :=
| HttpRaised
| HttpNot200
| HttpPage (main_content : option string) (para_text : string).

Record RegulationScraper : Type := {
  llm_analyzer : option Llm.LLMRegulationAnalyzer;
  session_get : string -> http_result
}.

Definition prohibited_keywords : list string :=
  [ "prohibited"; "forbidden"; "not permitted"; "not allowed";
    "banned"; "unlawful"; "illegal";
    "shall not"; "must not"; "may not"; "cannot"; "prohibits";
    "ban"; "outlaw"; "no person may"; "no person shall";
    "it is unlawful"; "it is illegal"; "prohibited from";
    "forbidden to"; "prohibition";
    "may not be"; "shall not be"; "must not be"; "cannot be" ].

Definition prohibited_phrases : list string :=
  [ "shall not"; "must not"; "may not"; "cannot"; "no person may";
    "no person shall"; "it is unlawful"; "it is illegal";
    "prohibited from"; "forbidden to" ].

Definition allowed_keywords : list string :=
  [ "permitted"; "allowed"; "authorized"; "approved"; "legal";
    "may"; "can"; "shall"; "must"; "requires"; "mandates";
    "regulation"; "provision"; "requirement"; "standard"; "guideline" ].

Definition organizational_labels : list string :=
  [ "chapter i"; "chapter ii"; "chapter iii"; "subchapter a"; "subchapter b";
    "subchapter c"; "subchapter d"; "subchapter e"; "subchapter f";
    "subchapter g"; "subchapter h"; "subchapter i"; "subchapter j";
    "subchapter k"; "subchapter l" ].

Definition requirement_indicators : list string :=
  [ "requirement"; "requirements"; "standard"; "standards"; "regulation";
    "regulations"; "rule"; "rules"; "procedure"; "procedures"; "guideline";
    "guidelines"; "registration"; "labeling"; "approval"; "manufacturing";
    "prescription"; "record"; "records"; "report"; "reports"; "quota";
    "quotas" ].

(** The [try] block that fetches the page when no content was supplied;
    the result is the new value of [content]. *)
Definition fetch_content (self : RegulationScraper) (url : string)
    (content : pyval) : pyval :=
  match session_get self url with
  | HttpRaised => PyStr ""
  | HttpNot200 => content
  | HttpPage None _ => content
  | HttpPage (Some text_content) para_text =>
      let content := take 8000 text_content in
      if (String.length content <? 500)%nat
      then if (String.length content <? String.length para_text)%nat
           then PyStr (take 8000 para_text)
           else PyStr content
      else PyStr content
  end.

(** "Try LLM first if available": the result that is returned in place of
    the keyword rules, if any. *)
Definition llm_override (self : RegulationScraper)
    (description url content : pyval) : option (string * string) :=
  match llm_analyzer self with
  | Some llm =>
      if Llm.enabled llm then
        let result := Llm.analyze_regulation_status llm description url content in
        if negb (String.eqb (fst result) "Unknown") then Some result else None
      else None
  | None => None
  end.

(** "Fallback to improved keyword matching": everything after
    [description_lower] and [full_text_lower] are bound. *)
Definition keyword_rules (description_lower full_text_lower : string)
  : string * string :=
  let prohibited_in_desc := count_in prohibited_keywords description_lower in
  let prohibited_phrase_in_desc := any_in prohibited_phrases description_lower in
  if prohibited_phrase_in_desc then
    ("Prohibited",
     "Regulation explicitly prohibits activities (prohibition phrase found in description)")
  else if (2 <=? prohibited_in_desc)%nat then
    ("Prohibited",
     "Contains " +:+ string_of_nat prohibited_in_desc
       +:+ " prohibition indicator(s) in description")
  else if contains "reserved" full_text_lower then
    ("Reserved", "Regulation section is reserved for future use")
  else
    let allowed_in_desc := count_in allowed_keywords description_lower in
    let allowed_in_content := count_in allowed_keywords full_text_lower in
    let allowed_count := (allowed_in_desc + allowed_in_content)%nat in
    if any_in ["chapter"; "subchapter"] description_lower
       && in_list (strip description_lower) organizational_labels
    then ("Administrative", "Organizational structure")
    else if any_in ["definition"; "definitions"] description_lower then
      ("Administrative", "Definitions section")
    else if any_in requirement_indicators description_lower then
      ("Requires Compliance",
       "Establishes regulatory requirements that must be followed")
    else if any_in ["food"; "drug"; "device"; "controlled substance"]
              description_lower then
      ("Requires Compliance", "Regulatory requirement for compliance")
    else if (0 <? allowed_count)%nat then
      ("Requires Compliance",
       "Regulatory requirement (" +:+ string_of_nat allowed_count
         +:+ " compliance indicators found)")
    else if (String.length (strip description_lower) <? 20)%nat
            || in_list (strip description_lower) ["general"; "definitions"]
    then ("Administrative", "Organizational structure")
    else ("Requires Compliance", "Regulatory provision").

Definition analyze_regulation_status (self : RegulationScraper)
    (description url content : pyval) : res (string * string) :=
  content <- (if negb (truthy content) && truthy url then
                is_http <- py_startswith url "http" ;;
                if is_http then Ok (fetch_content self (str url) content)
                else Ok content
              else Ok content) ;;
  let full_text := lower (strip (str description +:+ " " +:+ str content)) in
  match llm_override self description url content with
  | Some result => Ok result
  | None =>
      description_lower <- py_lower description ;;
      let full_text_lower := full_text in
      Ok (keyword_rules description_lower full_text_lower)
  end.

(** The five status values. *)
Definition statuses : list string :=
  [ "Prohibited"; "Requires Compliance"; "Reserved"; "Administrative";
    "Unknown" ].

(** A scraper without an LLM analyzer and without network. *)
Definition offline : RegulationScraper :=
  {| llm_analyzer := None; session_get := fun _ => HttpRaised |}.

End Classifier.

(** ** The SQLite store *)

Module Store.

Abbreviation dict := (gmap string pyval).

(** The two tables the refresh writes, each with the counter that
    [AUTOINCREMENT] keeps for it (the largest id ever handed out, so never
    below an id in the table).  The timestamp columns are left out: the
    model has no clock. *)
Record database : Type := {
  regulations : list dict;
  regulation_changes : list dict;
  regulations_seq : Z;
  regulation_changes_seq : Z
}.

Definition regulations_columns : list string :=
  [ "id"; "title"; "chapter"; "subchapter"; "part"; "section_range";
    "description"; "url"; "content_summary"; "status"; "status_reason" ].

(** [dict(row)]: every column is a key, [NULL] reads as [None]. *)
Definition dict_of_row (columns : list string) (row : dict) : dict :=
  list_to_map (List.map (fun c => (c, get row c PyNone)) columns).

(** A value bound to a [TEXT] column is stored as text.  An int is taken
    to fit in 64 bits; [sqlite3] refuses to bind a larger one. *)
Definition text_affinity (v : pyval) : pyval :=
  match v with
  | PyInt n => PyStr (string_of_Z n)
  | _ => v
  end.

(** [INSERT INTO regulations (title, chapter, subchapter, part,
    section_range, description, url, status, status_reason, last_updated)];
    the result is [lastrowid]. *)
Definition insert_regulation
    (title chapter subchapter part section_range description url status
       status_reason : pyval) (db : database) : Z * database :=
  let id := (regulations_seq db + 1)%Z in
  let row : dict :=
    list_to_map
      [ ("id", PyInt id); ("title", text_affinity title);
        ("chapter", text_affinity chapter);
        ("subchapter", text_affinity subchapter);
        ("part", text_affinity part);
        ("section_range", text_affinity section_range);
        ("description", text_affinity description);
        ("url", text_affinity url);
        ("status", text_affinity status);
        ("status_reason", text_affinity status_reason) ] in
  (id,
   {| regulations := regulations db ++ [row];
      regulation_changes := regulation_changes db;
      regulations_seq := id;
      regulation_changes_seq := regulation_changes_seq db |}).

(** [INSERT INTO regulation_changes (regulation_id, change_type, field_name,
    old_value, new_value, detected_at)]; [notified] takes its default. *)
Definition insert_change (regulation_id : Z)
    (change_type field_name old_value new_value : string) (db : database)
  : unit * database :=
  let id := (regulation_changes_seq db + 1)%Z in
  let row : dict :=
    list_to_map
      [ ("id", PyInt id); ("regulation_id", PyInt regulation_id);
        ("change_type", PyStr change_type); ("field_name", PyStr field_name);
        ("old_value", PyStr old_value); ("new_value", PyStr new_value);
        ("notified", PyInt 0) ] in
  (tt,
   {| regulations := regulations db;
      regulation_changes := regulation_changes db ++ [row];
      regulations_seq := regulations_seq db;
      regulation_changes_seq := id |}).

(** [DELETE FROM regulations]. *)
Definition delete_regulations (db : database) : unit * database :=
  (tt,
   {| regulations := [];
      regulation_changes := regulation_changes db;
      regulations_seq := regulations_seq db;
      regulation_changes_seq := regulation_changes_seq db |}).

(** *** A connection

    [file] is the committed database, the one every other connection reads.
    The [sqlite3] module opens a transaction before the first writing
    statement; until [commit] the writes live in [txn] only, and a
    connection that is closed or dropped with an open transaction rolls it
    back. *)
Record session : Type := {
  file : database;
  txn : option database;
  closed : bool
}.

Definition connect (db : database) : session :=
  {| file := db; txn := None; closed := false |}.

(** What this connection reads. *)
Definition current (s : session) : database := default (file s) (txn s).

Definition ProgrammingError : exn :=
  Exn "ProgrammingError" "Cannot operate on a closed database.".

(** Code that uses a connection and can raise. *)
Definition M (A : Type) : Type := session -> res A * session.

Definition ret {A} (a : A) : M A := fun s => (Ok a, s).

Definition mbind {A B} (m : M A) (f : A -> M B) : M B := fun s =>
  match m s with
  | (Ok a, s') => f a s'
  | (Raise e, s') => (Raise e, s')
  end.

Notation "'let*' x ':=' m 'in' k" := (mbind m (fun x => k))
  (at level 10, x name, m at level 100, k at level 200).

(** Code that can raise and does not touch the connection. *)
Definition lift {A} (r : res A) : M A := fun s => (r, s).

Definition execute_select {A} (q : database -> A) : M A := fun s =>
  if closed s then (Raise ProgrammingError, s)
  else (Ok (q (current s)), s).

Definition execute_write {A} (w : database -> A * database) : M A := fun s =>
  if closed s then (Raise ProgrammingError, s)
  else
    let r := w (current s) in
    (Ok (fst r), {| file := file s; txn := Some (snd r); closed := false |}).

Definition commit : M unit := fun s =>
  if closed s then (Raise ProgrammingError, s)
  else (Ok tt, {| file := current s; txn := None; closed := false |}).

Definition close : M unit := fun s =>
  (Ok tt, {| file := file s; txn := None; closed := true |}).

(** *** Expressions of the queries *)

(** [X LIKE pattern]: [%] stands for any run of characters, [_] for one
    character, letters match without regard to case. *)
Fixpoint like (pattern : string) : string -> bool :=
  match pattern with
  | EmptyString => fun s => String.eqb s EmptyString
  | String c pattern' =>
      if Ascii.eqb c "%" then
        fix any (s : string) : bool :=
          like pattern' s ||
          match s with
          | EmptyString => false
          | String _ s' => any s'
          end
      else if Ascii.eqb c "_" then
        fun s =>
          match s with
          | EmptyString => false
          | String _ s' => like pattern' s'
          end
      else
        fun s =>
          match s with
          | EmptyString => false
          | String d s' =>
              Ascii.eqb (lower_ascii c) (lower_ascii d) && like pattern' s'
          end
  end.

(** A comparison that involves [NULL] is not true. *)
Definition sql_like (v : pyval) (pattern : string) : bool :=
  match v with
  | PyNone => false
  | PyStr s => like pattern s
  | PyInt n => like pattern (string_of_Z n)
  end.

(** [v != 'text']. *)
Definition sql_ne_text (v : pyval) (t : string) : bool :=
  match v with
  | PyNone => false
  | PyStr s => negb (String.eqb s t)
  | PyInt _ => true
  end.

(** The order of [ORDER BY]: [NULL], then integers, then text. *)
Definition sql_compare (a b : pyval) : comparison :=
  match a, b with
  | PyNone, PyNone => Eq
  | PyNone, _ => Lt
  | _, PyNone => Gt
  | PyInt m, PyInt n => Z.compare m n
  | PyInt _, PyStr _ => Lt
  | PyStr _, PyInt _ => Gt
  | PyStr s, PyStr t => String.compare s t
  end.

Fixpoint compare_by (terms : list (dict -> pyval)) (r1 r2 : dict) : comparison :=
  match terms with
  | [] => Eq
  | t :: terms' =>
      match sql_compare (t r1) (t r2) with
      | Eq => compare_by terms' r1 r2
      | c => c
      end
  end.

Definition row_le (terms : list (dict -> pyval)) (r1 r2 : dict) : bool :=
  match compare_by terms r1 r2 with
  | Gt => false
  | _ => true
  end.

Fixpoint insert_by {A} (le : A -> A -> bool) (x : A) (l : list A) : list A :=
  match l with
  | [] => [x]
  | y :: l' => if le x y then x :: l else y :: insert_by le x l'
  end.

(** A stable sort; rows that compare equal keep the order of the table. *)
Definition order_by (terms : list (dict -> pyval)) (rows : list dict) : list dict :=
  foldr (insert_by (row_le terms)) [] rows.

Definition column (name : string) (row : dict) : pyval := get row name PyNone.

(** [SELECT * FROM regulations WHERE ... ORDER BY ...] with [fetchall] and
    [dict(row)]. *)
Definition select_regulations (where_ : dict -> bool)
    (terms : list (dict -> pyval)) (db : database) : list dict :=
  List.map (dict_of_row regulations_columns)
    (order_by terms (List.filter where_ (regulations db))).

End Store.

(** ** [RegulationScraper.search_regulations]: keyword search *)

Module Search.
Import Store.

Definition is_digit (c : ascii) : bool :=
  let n := N_of_ascii c in (48 <=? n)%N && (n <=? 57)%N.

(** The number of digits [s] starts with. *)
Fixpoint count_digits (s : string) : nat :=
  match s with
  | EmptyString => 0
  | String c s' => if is_digit c then S (count_digits s') else 0
  end.

(** [s[n:]]. *)
Fixpoint drop (n : nat) (s : string) : string :=
  match n, s with
  | O, _ => s
  | S _, EmptyString => EmptyString
  | S n', String _ s' => drop n' s'
  end.

(** [re.search]: the group of the match that starts leftmost; [match_at]
    matches the pattern at the start of its argument. *)
Fixpoint re_search {A} (match_at : string -> option A) (s : string) : option A :=
  match match_at s with
  | Some g => Some g
  | None =>
      match s with
      | EmptyString => None
      | String _ s' => re_search match_at s'
      end
  end.

Definition or_else {A} (a b : option A) : option A :=
  match a with
  | Some _ => a
  | None => b
  end.

(** Four or five digits, as many as there are: the group [\d{4,5}]. *)
Definition digits_4_5 (s : string) : option string :=
  let n := count_digits s in
  if (5 <=? n)%nat then Some (take 5 s)
  else if (4 <=? n)%nat then Some (take 4 s)
  else None.

(** The part pattern: optionally "part" and white space, then the group
    [\d{4,5}]. *)
Definition part_pattern (s : string) : option string :=
  or_else
    (if startswith "part" s then digits_4_5 (lstrip (drop 4 s)) else None)
    (digits_4_5 s).

(** The group [\d{4,5}\.\d+]: five digits are tried before four. *)
Definition section_number_at (s : string) : option string :=
  let n := count_digits s in
  let with_digits (k : nat) : option string :=
    if (k <=? n)%nat then
      match drop k s with
      | String c rest =>
          if Ascii.eqb c "." && (0 <? count_digits rest)%nat
          then Some (take (k + 1 + count_digits rest) s)
          else None
      | EmptyString => None
      end
    else None in
  or_else (with_digits 5%nat) (with_digits 4%nat).

(** The two characters that precede [|section] in the source of the
    pattern; they lie outside ASCII and stand here as two characters with
    codes above 127. *)
Definition section_sign : string :=
  String "162"%char (String "135"%char EmptyString).

(** The section pattern: optionally the sign, or "section" and white
    space, then the group [\d{4,5}\.\d+]. *)
Definition section_pattern (s : string) : option string :=
  or_else
    (if startswith section_sign s then section_number_at (drop 2 s)
     else if startswith "section" s then section_number_at (lstrip (drop 7 s))
     else None)
    (section_number_at s).

(** The chapter pattern: "chapter", white space, then the group [\d+]. *)
Definition chapter_pattern (s : string) : option string :=
  if startswith "chapter" s then
    let rest := lstrip (drop 7 s) in
    let n := count_digits rest in
    if (0 <? n)%nat then Some (take n rest) else None
  else None.

(** [int(digits)]. *)
Definition int_of_digits (digits : string) : nat :=
  let fix go (s : string) (acc : nat) : nat :=
    match s with
    | EmptyString => acc
    | String c s' => go s' (10 * acc + (nat_of_ascii c - 48))%nat
    end in
  go digits 0%nat.

Definition roman_numerals : list string :=
  [ ""; "I"; "II"; "III"; "IV"; "V"; "VI"; "VII"; "VIII"; "IX"; "X" ].

Definition chapter_patterns (query_lower : string) : list string :=
  match re_search chapter_pattern query_lower with
  | Some digits =>
      let chapter_num := int_of_digits digits in
      if (1 <=? chapter_num)%nat && (chapter_num <=? 10)%nat then
        let roman := default "" (roman_numerals !! chapter_num) in
        [ "%Chapter " +:+ roman +:+ "%"; "%chapter " +:+ roman +:+ "%";
          "%Chapter " +:+ string_of_nat chapter_num +:+ "%";
          "%chapter " +:+ string_of_nat chapter_num +:+ "%" ]
      else []
  | None => []
  end.

(** [AND status != "Reserved"], appended when the query does not mention
    "reserved". *)
Definition reserved_clause (exclude_reserved : bool) (row : dict) : bool :=
  if exclude_reserved then sql_ne_text (column "status" row) "Reserved"
  else true.

Definition search_regulations (db : database) (query : string) : list dict :=
  let query_lower := strip (lower query) in
  let part_match := re_search part_pattern query_lower in
  let section_match := re_search section_pattern query_lower in
  let exclude_reserved := negb (contains "reserved" query_lower) in
  match section_match, part_match with
  | Some section_number, _ =>
      select_regulations
        (fun row =>
           (sql_like (column "section_range" row) ("%" +:+ section_number +:+ "%")
            || sql_like (column "section_range" row) ("%" +:+ query +:+ "%"))
           && reserved_clause exclude_reserved row)
        [ column "chapter"; column "subchapter"; column "part";
          column "section_range" ]
        db
  | None, Some part_number =>
      select_regulations
        (fun row =>
           (sql_like (column "part" row) ("%Part " +:+ part_number +:+ "%")
            || sql_like (column "part" row) ("%" +:+ part_number +:+ "%")
            || sql_like (column "section_range" row) ("%" +:+ part_number +:+ "%"))
           && reserved_clause exclude_reserved row)
        [ (fun row =>
             if sql_like (column "part" row) ("%Part " +:+ part_number +:+ "%")
             then PyInt 1 else PyInt 2);
          column "chapter"; column "subchapter"; column "part" ]
        db
  | None, None =>
      let search_pattern := "%" +:+ query +:+ "%" in
      select_regulations
        (fun row =>
           (sql_like (column "description" row) search_pattern
            || sql_like (column "part" row) search_pattern
            || sql_like (column "subchapter" row) search_pattern
            || sql_like (column "section_range" row) search_pattern
            || sql_like (column "content_summary" row) search_pattern
            || sql_like (column "chapter" row) search_pattern
            || existsb (sql_like (column "chapter" row))
                 (tail (chapter_patterns query_lower)))
           && reserved_clause exclude_reserved row)
        [ column "chapter"; column "subchapter"; column "part" ]
        db
  end.

End Search.

(** ** [refresh_regulations.update_regulations]: store replacement and
       change detection *)

Module Refresh.
Import Store Classifier.

(** [k in d]. *)
Definition has_key (d : dict) (k : string) : bool := bool_decide (is_Some (d !! k)).

(** [bool(d)] for a dict. *)
Definition dict_truthy (d : dict) : bool := negb (bool_decide (d = ∅)).

Definition text (s : string) : pyval := PyStr s.

(** [v + ': '] and the like. *)
Definition py_concat (v : pyval) (s : string) : res string :=
  match v with
  | PyStr a => Ok (a +:+ s)
  | _ =>
      Raise (Exn "TypeError"
               ("unsupported operand type(s) for +: '" +:+ type_name v
                  +:+ "' and 'str'"))
  end.

(** "Normalize the regulation structure" and "Ensure required fields
    exist". *)
Definition normalize (reg : dict) : dict :=
  let reg :=
    if has_key reg "type" && has_key reg "text" then
      let reg_type := get reg "type" (text "") in
      let reg_text := get reg "text" (text "") in
      if bool_decide (reg_type = text "chapter") then
        <["part" := text ""]>
          (<["subchapter" := text ""]> (<["chapter" := reg_text]> reg))
      else if bool_decide (reg_type = text "subchapter") then
        <["part" := text ""]>
          (<["subchapter" := reg_text]>
             (<["chapter" := get reg "parent_chapter" (text "")]> reg))
      else if bool_decide (reg_type = text "part") then
        <["part" := reg_text]>
          (<["subchapter" := get reg "parent_subchapter" (text "")]>
             (<["chapter" := get reg "parent_chapter" (text "")]> reg))
      else reg
    else reg in
  setdefault "url" (text "")
    (setdefault "description" (text "")
       (setdefault "section_range" (text "")
          (setdefault "part" (text "")
             (setdefault "subchapter" (text "")
                (setdefault "chapter" (text "")
                   (setdefault "title" (text "Title 21") reg)))))).

(** One incoming record up to and including the status analysis: the
    record as it is inserted and compared. *)
Definition prepare (scraper : RegulationScraper) (reg : dict) : res dict :=
  let reg := normalize reg in
  result <- analyze_regulation_status scraper
              (get reg "description" (text ""))
              (get reg "url" (text ""))
              (get reg "content_summary" (text "")) ;;
  Ok (<["status_reason" := text (snd result)]>
        (<["status" := text (fst result)]> reg)).

(** The key [part|description[:100]], for a stored row as for an incoming
    record. *)
Definition lookup_key (reg : dict) : res string :=
  description <- py_take 100 (get reg "description" (text "")) ;;
  Ok (str (get reg "part" (text "")) +:+ "|" +:+ description).

(** "Get existing regulations for change detection": a later row with the
    same key replaces an earlier one. *)
Fixpoint index_existing (rows : list dict) (existing_regs : gmap string dict)
  : res (gmap string dict) :=
  match rows with
  | [] => Ok existing_regs
  | reg_dict :: rows' =>
      key <- lookup_key reg_dict ;;
      index_existing rows' (<[key := reg_dict]> existing_regs)
  end.

Definition fields_to_check : list string :=
  [ "description"; "status"; "url"; "section_range" ].

(** [str(d.get(field, '') or '')]. *)
Definition field_text (d : dict) (field : string) : string :=
  str (py_or (get d field (text "")) (text "")).

(** An entry of [changes_detected]. *)
Definition detected (part : pyval) (field old new : string) : dict :=
  list_to_map
    [ ("part", part); ("field", text field); ("old", text old);
      ("new", text new) ].

(** "Check for changes in key fields": the loop over [fields_to_check]. *)
Fixpoint record_updates (existing_reg reg : dict) (new_reg_id : Z)
    (fields : list string) : M (list dict) :=
  match fields with
  | [] => ret []
  | field :: fields' =>
      let old_val := field_text existing_reg field in
      let new_val := field_text reg field in
      if negb (String.eqb old_val new_val) then
        let* _ := execute_write
                    (insert_change new_reg_id "updated" field
                       (take 500 old_val) (take 500 new_val)) in
        let* rest := record_updates existing_reg reg new_reg_id fields' in
        ret (detected (get reg "part" (text "")) field
               (take 100 old_val) (take 100 new_val) :: rest)
      else record_updates existing_reg reg new_reg_id fields'
  end.

(** "New regulation added". *)
Definition record_added (reg : dict) (new_reg_id : Z) : M (list dict) :=
  let* label := lift (py_concat (get reg "part" (text "")) ": ") in
  let* description := lift (py_take 100 (get reg "description" (text ""))) in
  let* _ := execute_write
              (insert_change new_reg_id "added" "regulation" ""
                 (label +:+ description)) in
  ret [ detected (get reg "part" (text "")) "new_regulation" "" description ].

(** The body of [for reg in regulations]; the result is what the pass adds
    to [changes_detected]. *)
Definition refresh_record (scraper : RegulationScraper)
    (existing_regs : gmap string dict) (reg : dict) : M (list dict) :=
  let* reg := lift (prepare scraper reg) in
  let* key := lift (lookup_key reg) in
  let existing_reg := existing_regs !! key in
  let* new_reg_id :=
    execute_write
      (insert_regulation
         (get reg "title" (text "")) (get reg "chapter" (text ""))
         (get reg "subchapter" (text "")) (get reg "part" (text ""))
         (get reg "section_range" (text ""))
         (get reg "description" (text "")) (get reg "url" (text ""))
         (get reg "status" (text "Requires Compliance"))
         (get reg "status_reason" (text ""))) in
  match existing_reg with
  | Some old =>
      if dict_truthy old
      then record_updates old reg new_reg_id fields_to_check
      else record_added reg new_reg_id
  | None => record_added reg new_reg_id
  end.

Fixpoint refresh_loop (scraper : RegulationScraper)
    (existing_regs : gmap string dict) (regulations : list dict)
  : M (list dict) :=
  match regulations with
  | [] => ret []
  | reg :: regulations' =>
      let* changes := refresh_record scraper existing_regs reg in
      let* rest := refresh_loop scraper existing_regs regulations' in
      ret (changes ++ rest)
  end.

(** From [get_db_connection()] to the last pass of the loop: read the old
    rows, delete them, insert the new ones and the change records. *)
Definition replace_store (scraper : RegulationScraper)
    (regulations : list dict) : M (list dict) :=
  let* rows := execute_select
                 (fun db => List.map (dict_of_row regulations_columns)
                              (Store.regulations db)) in
  let* existing_regs := lift (index_existing rows ∅) in
  let* _ := execute_write delete_regulations in
  refresh_loop scraper existing_regs regulations.

(** [update_regulations] once the records to store are at hand.  The source
    commits and closes twice. *)
Definition update_regulations (scraper : RegulationScraper)
    (regulations : list dict) : M unit :=
  let* changes_detected := replace_store scraper regulations in
  let* _ := commit in
  let* _ := close in
  let* _ := commit in
  let* _ := close in
  ret tt.

(** One run of [update_regulations] against the database file: its outcome
    and the file it leaves behind.  The connection is local to the run, so
    whatever it had not committed is gone with it. *)
Definition run_update (scraper : RegulationScraper) (regulations : list dict)
    (db : database) : res unit * database :=
  let r := update_regulations scraper regulations (connect db) in
  (fst r, file (snd r)).

End Refresh.

(** ** [rag_service.py]: the vector index and the hybrid merge *)

Module Rag.
Import Store.

Local Open Scope Q_scope.

Abbreviation vector := (list Q).

#[global] Instance Q_eq_dec : EqDecision Q.
Proof. solve_decision. Defined.

(** A value of a search result: a field of the regulation or a score. *)
Inductive rval : Type :=
| Field (v : pyval)
| Float (q : Q).

#[global] Instance rval_eq_dec : EqDecision rval.
Proof. solve_decision. Defined.

Abbreviation result := (gmap string rval).

(** The two collaborators: the sentence embedder behind
    [_generate_embedding], and [index.search(query, k)] of a flat L2 index
    that holds the given vectors, which answers with the distances and the
    positions of the hits.  Both can raise. *)
Record backend : Type := {
  generate_embedding : string -> res vector;
  faiss_search : list vector -> vector -> Z -> res (list (Q * Z))
}.

(** The state of a [RAGService]: the vectors of the FAISS index in the
    order they were added ([None] while there is no index object), the
    metadata list and the flag.  The two files that mirror the state on
    disk are left out. *)
Record RAGService : Type := {
  index : option (list vector);
  regulations_metadata : list dict;
  is_indexed : bool
}.

Definition init : RAGService :=
  {| index := None; regulations_metadata := []; is_indexed := false |}.

Definition clear_index (self : RAGService) : RAGService :=
  {| index := None; regulations_metadata := []; is_indexed := false |}.

(** [sep.join(parts)] from item [i] on; every part has to be text. *)
Fixpoint join_from (sep : string) (i : nat) (parts : list pyval) : res string :=
  match parts with
  | [] => Ok EmptyString
  | p :: parts' =>
      match p with
      | PyStr a =>
          rest <- join_from sep (S i) parts' ;;
          Ok (match parts' with
              | [] => a
              | _ => a +:+ sep +:+ rest
              end)
      | _ =>
          Raise (Exn "TypeError"
                   ("sequence item " +:+ string_of_nat i
                      +:+ ": expected str instance, " +:+ type_name p
                      +:+ " found"))
      end
  end.

Definition join (sep : string) (parts : list pyval) : res string :=
  join_from sep 0 parts.

Definition create_searchable_text (reg : dict) : res string :=
  let labelled (key label : string) : list pyval :=
    if truthy (get reg key PyNone)
    then [PyStr (label +:+ str (get reg key PyNone))] else [] in
  let parts :=
    (labelled "part" "Part "
     ++ labelled "chapter" "Chapter "
     ++ labelled "subchapter" "Subchapter "
     ++ (if truthy (get reg "description" PyNone)
         then [get reg "description" PyNone] else [])
     ++ labelled "section_range" "Sections ")%list in
  join " | " parts.

(** The loop of [index_regulations] that fills [embeddings] and
    [metadata]. *)
Fixpoint embed_all (b : backend) (regulations : list dict)
    (embeddings : list vector) (metadata : list dict)
  : res (list vector * list dict) :=
  match regulations with
  | [] => Ok (embeddings, metadata)
  | reg :: regulations' =>
      searchable_text <- create_searchable_text reg ;;
      embedding <- generate_embedding b searchable_text ;;
      description <- py_take 500 (get reg "description" (PyStr "")) ;;
      let entry : dict :=
        list_to_map
          [ ("id", get reg "id" (PyInt (Z.of_nat (length metadata))));
            ("chapter", get reg "chapter" (PyStr ""));
            ("subchapter", get reg "subchapter" (PyStr ""));
            ("part", get reg "part" (PyStr ""));
            ("description", PyStr description);
            ("status", get reg "status" (PyStr "Unknown"));
            ("url", get reg "url" (PyStr ""));
            ("section_range", get reg "section_range" (PyStr ""));
            ("title", get reg "title" (PyStr "Title 21")) ] in
      embed_all b regulations' (embeddings ++ [embedding])%list
        (metadata ++ [entry])%list
  end.

(** The count that is returned and the state after the call.  An exception
    leaves the state as it was: nothing is assigned before the loop is
    through. *)
Definition index_regulations (b : backend) (self : RAGService)
    (regulations : list dict) : res (Z * RAGService) :=
  match regulations with
  | [] => Ok (0%Z, self)
  | _ =>
      r <- embed_all b regulations [] [] ;;
      let index :=
        match index self with
        | None => []
        | Some vectors => vectors
        end in
      Ok (Z.of_nat (length regulations),
          {| index := Some (index ++ fst r)%list;
             regulations_metadata := snd r;
             is_indexed := true |})
  end.

(** [l[i]] with an index that may be negative. *)
Definition py_index {A} (l : list A) (i : Z) : res A :=
  let n := Z.of_nat (length l) in
  let j := if (i <? 0)%Z then (i + n)%Z else i in
  if (j <? 0)%Z then Raise IndexError
  else match l !! Z.to_nat j with
       | Some x => Ok x
       | None => Raise IndexError
       end.

Definition ZeroDivisionError : exn :=
  Exn "ZeroDivisionError" "float division by zero".

Definition py_div (a b : Q) : res Q :=
  if Qeq_bool b 0 then Raise ZeroDivisionError else Ok (a / b).

(** "Apply filters if specified": does the record fail a filter. *)
Definition filtered_out (filter_dict : option dict) (metadata : dict) : bool :=
  match filter_dict with
  | Some f =>
      if Refresh.dict_truthy f then
        match f !! "status" with
        | Some wanted =>
            if negb (bool_decide (get metadata "status" PyNone = wanted))
            then true
            else match f !! "chapter" with
                 | Some wanted =>
                     negb (bool_decide (get metadata "chapter" PyNone = wanted))
                 | None => false
                 end
        | None =>
            match f !! "chapter" with
            | Some wanted =>
                negb (bool_decide (get metadata "chapter" PyNone = wanted))
            | None => false
            end
        end
      else false
  | None => false
  end.

Definition search_result (metadata : dict) (similarity_score : Q) : result :=
  list_to_map
    [ ("id", Field (get metadata "id" (PyInt 0)));
      ("chapter", Field (get metadata "chapter" (PyStr "")));
      ("subchapter", Field (get metadata "subchapter" (PyStr "")));
      ("part", Field (get metadata "part" (PyStr "")));
      ("description", Field (get metadata "description" (PyStr "")));
      ("status", Field (get metadata "status" (PyStr "Unknown")));
      ("url", Field (get metadata "url" (PyStr "")));
      ("relevance_score", Float similarity_score);
      ("section_range", Field (get metadata "section_range" (PyStr "")));
      ("title", Field (get metadata "title" (PyStr "Title 21"))) ].

(** "Convert results to regulation format": the loop over the hits, with
    the list built so far. *)
Fixpoint collect (self : RAGService) (n_results : Z) (filter_dict : option dict)
    (hits : list (Q * Z)) (regulations : list result) : res (list result) :=
  match hits with
  | [] => Ok regulations
  | (distance, idx) :: hits' =>
      if (idx <? Z.of_nat (length (regulations_metadata self)))%Z then
        metadata <- py_index (regulations_metadata self) idx ;;
        if filtered_out filter_dict metadata
        then collect self n_results filter_dict hits' regulations
        else
          similarity_score <- py_div 1 (1 + distance) ;;
          let regulations :=
            (regulations ++ [search_result metadata similarity_score])%list in
          if (n_results <=? Z.of_nat (length regulations))%Z
          then Ok regulations
          else collect self n_results filter_dict hits' regulations
      else collect self n_results filter_dict hits' regulations
  end.

Definition semantic_search (b : backend) (self : RAGService) (query : string)
    (n_results : Z) (filter_dict : option dict) : list result :=
  match index self with
  | Some vectors =>
      if is_indexed self then
        match
          (query_embedding <- generate_embedding b query ;;
           let k := Z.min (n_results * 2)
                      (Z.of_nat (length (regulations_metadata self))) in
           hits <- faiss_search b vectors query_embedding k ;;
           collect self n_results filter_dict hits [])
        with
        | Ok regulations => regulations
        | Raise _ => []
        end
      else []
  | None => []
  end.

(** [l[:n]] with an [n] that may be negative. *)
Definition slice_to {A} (n : Z) (l : list A) : list A :=
  if (0 <=? n)%Z then firstn (Z.to_nat n) l
  else firstn (Z.to_nat (Z.of_nat (length l) + n)) l.

(** [r.get(k, 0.0)] where [k] holds a score. *)
Definition get_float (r : result) (k : string) : Q :=
  match r !! k with
  | Some (Float q) => q
  | _ => 0
  end.

(** [r.get('id')]. *)
Definition get_id (r : result) : rval := default (Field PyNone) (r !! "id").

(** [combined]: a dict keeps its keys in the order of their first
    assignment. *)
Fixpoint lookup_key (key : rval) (combined : list (rval * result)) : option result :=
  match combined with
  | [] => None
  | (k, v) :: rest => if bool_decide (k = key) then Some v else lookup_key key rest
  end.

Fixpoint assign (key : rval) (v : result) (combined : list (rval * result))
  : list (rval * result) :=
  match combined with
  | [] => [(key, v)]
  | (k, w) :: rest =>
      if bool_decide (k = key) then (k, v) :: rest
      else (k, w) :: assign key v rest
  end.

(** "Add semantic results with weighted scores". *)
Fixpoint add_semantic (semantic_weight : Q) (semantic_results : list result)
    (combined : list (rval * result)) : list (rval * result) :=
  match semantic_results with
  | [] => combined
  | r :: rest =>
      let reg_id := get_id r in
      let score := get_float r "relevance_score" * semantic_weight in
      add_semantic semantic_weight rest
        (assign reg_id
           (<["source" := Field (PyStr "semantic")]>
              (<["combined_score" := Float score]> r))
           combined)
  end.

(** "Add keyword results with weighted scores"; [i] is the rank. *)
Fixpoint add_keyword (keyword_weight : Q) (i : nat) (keyword_results : list dict)
    (combined : list (rval * result)) : list (rval * result) :=
  match keyword_results with
  | [] => combined
  | row :: rest =>
      let r : result := Field <$> row in
      let reg_id := get_id r in
      let keyword_score := keyword_weight * (1 / (inject_Z (Z.of_nat i) + 1)) in
      add_keyword keyword_weight (S i) rest
        (match lookup_key reg_id combined with
         | Some entry =>
             assign reg_id
               (<["source" := Field (PyStr "both")]>
                  (<["combined_score" :=
                       Float (get_float entry "combined_score" + keyword_score)]>
                     entry))
               combined
         | None =>
             assign reg_id
               (<["source" := Field (PyStr "keyword")]>
                  (<["combined_score" := Float keyword_score]> r))
               combined
         end)
  end.

(** [sorted(..., key=combined_score, reverse=True)]: highest score first,
    equal scores in the order they had. *)
Definition sort_by_score (results : list result) : list result :=
  foldr
    (insert_by (fun x y => Qle_bool (get_float y "combined_score")
                                    (get_float x "combined_score")))
    [] results.

Definition hybrid_search (b : backend) (self : RAGService) (query : string)
    (n_results : Z) (keyword_results : option (list dict)) (semantic_weight : Q)
  : list result :=
  let semantic_results := semantic_search b self query (n_results * 2) None in
  match keyword_results with
  | None | Some [] => slice_to n_results semantic_results
  | Some keyword_results =>
      let combined := add_semantic semantic_weight semantic_results [] in
      let keyword_weight := 1 - semantic_weight in
      let combined := add_keyword keyword_weight 0 keyword_results combined in
      let sorted_results := sort_by_score (List.map snd combined) in
      slice_to n_results sorted_results
  end.

(** *** A backend to run the code on

    One-dimensional embeddings (the length of the text) and an exact
    flat index: squared distance, nearest first, earlier vector first among
    equals; [k] results whatever the size of the index, the missing ones
    with position -1 and the largest single precision number as distance. *)

Definition l2sqr (x y : vector) : Q :=
  fold_right Qplus 0 (zip_with (fun a b => (a - b) * (a - b)) x y).

Definition flt_max : Q := inject_Z 340282346638528859811704183484516925440.

Definition flat_search (vectors : list vector) (query : vector) (k : Z)
  : res (list (Q * Z)) :=
  if (k <=? 0)%Z then Raise (Exn "AssertionError" "")
  else
    let scored := imap (fun i v => (l2sqr query v, Z.of_nat i)) vectors in
    let nearest :=
      foldr (insert_by (fun a b : Q * Z => Qle_bool (fst a) (fst b))) [] scored in
    let found := firstn (Z.to_nat k) nearest in
    Ok (found ++ replicate (Z.to_nat k - length found) (flt_max, (-1)%Z))%list.

Definition length_embedder : backend :=
  {| generate_embedding :=
       fun text => Ok [inject_Z (Z.of_nat (String.length text))];
     faiss_search := flat_search |}.

End Rag.

(** ** Vocabulary of the properties, and data to run the code on *)

Section Vocabulary.
Import Classifier Store Search Refresh Rag.

(** Every character of [s] passes [p]. *)
Fixpoint all_chars (p : ascii -> bool) (s : string) : bool :=
  match s with
  | EmptyString => true
  | String c s' => p c && all_chars p s'
  end.

(** A keyword without white space. *)
Definition spaceless (kw : string) : bool :=
  all_chars (fun c => negb (is_space c)) kw.

(** A url as the scrapers deliver it: text, or nothing at all. *)
Definition text_or_none (v : pyval) : Prop :=
  match v with
  | PyInt _ => False
  | _ => True
  end.

(** No reply of the external classifier takes the place of the keyword
    rules for this description and url: there is no analyzer, it is
    disabled, its call fails, or it answers "Unknown". *)
Definition llm_silent (self : RegulationScraper) (description url : pyval) : Prop :=
  forall content, llm_override self description url content = None.

Definition sample_row (part description status : string) : dict :=
  list_to_map
    [ ("chapter", PyStr "Chapter II"); ("part", PyStr part);
      ("description", PyStr description); ("status", PyStr status) ].

Definition sample_db : database :=
  {| regulations :=
       [ sample_row "Part 1301" "Registration of manufacturers" "Requires Compliance";
         sample_row "Part 1302" "[Reserved]" "Reserved";
         sample_row "Part 1" "General" "Administrative" ];
     regulation_changes := [];
     regulations_seq := 3;
     regulation_changes_seq := 0 |}.

(** Code that leaves the committed file alone and the connection open. *)
Definition keeps_file {A} (m : M A) : Prop :=
  forall s r s', closed s = false -> m s = (r, s') ->
                 file s' = file s /\ closed s' = false.

Definition incoming (part description : string) : dict :=
  list_to_map [ ("part", PyStr part); ("description", PyStr description) ].

(** An incoming record whose description is None. *)
Definition broken_record : dict :=
  list_to_map [ ("part", PyStr "Part 9"); ("description", PyNone) ].

(** The state of a connection after the old rows are deleted. *)
Definition after_delete (db : database) : session :=
  snd (execute_write delete_regulations (connect db)).

(** The compared fields of a stored row and of an incoming record read the
    same. *)
Definition same_fields (old reg : dict) : Prop :=
  forall field, In field fields_to_check ->
                field_text old field = field_text reg field.

(** The stored rows of [sample_db] under their lookup keys. *)
Definition sample_existing : gmap string dict :=
  match
    index_existing
      (List.map (dict_of_row regulations_columns) (regulations sample_db)) ∅
  with
  | Ok existing_regs => existing_regs
  | Raise _ => ∅
  end.

Local Open Scope Q_scope.

Definition first_batch : list dict :=
  [ incoming "Part 1" "aaaa"; incoming "Part 2" "bb" ].

Definition second_batch : list dict := [ incoming "Part 3" "c" ].

(** The service after [first_batch] was indexed from scratch. *)
Definition sample_index : RAGService :=
  match index_regulations length_embedder init first_batch with
  | Ok (_, self) => self
  | Raise _ => init
  end.

(** Results taken from a list of hits, in the order of the hits, each with
    the score of its hit. *)
Inductive picked : list (Q * Z) -> list result -> Prop :=
| picked_nil hits : picked hits []
| picked_skip hit hits out : picked hits out -> picked (hit :: hits) out
| picked_take distance idx metadata hits out :
    picked hits out ->
    picked ((distance, idx) :: hits)
           (search_result metadata (1 / (1 + distance)) :: out).

(** The hits as FAISS hands them over: nearest first, no distance below
    zero. *)
Definition nearest_first (hits : list (Q * Z)) : Prop :=
  StronglySorted (fun a b => fst a <= fst b) hits
  /\ Forall (fun hit => 0 <= fst hit) hits.

Definition by_score_desc (out : list result) : Prop :=
  StronglySorted
    (fun x y => get_float y "relevance_score" <= get_float x "relevance_score")
    out.

(** Every entry carries [1 / (1 + d)] for a distance [d] that is not
    negative. *)
Definition scored (r : result) : Prop :=
  exists d, 0 <= d
            /\ r !! "relevance_score" = Some (Float (1 / (1 + d)))
            /\ r !! "combined_score" = None
            /\ 0 <= 1 / (1 + d).

(** The score an entry of the merged list reports: its combined score, and
    its relevance score if it has none. *)
Definition reported_score (r : result) : option rval :=
  match r !! "combined_score" with
  | Some v => Some v
  | None => r !! "relevance_score"
  end.

(** Every entry reports its similarity times the weight. *)
Definition weighted (semantic_weight : Q) (out : list result) : Prop :=
  Forall (fun r => exists score,
                     reported_score r = Some (Float score)
                     /\ score == get_float r "relevance_score" * semantic_weight)
         out.

End Vocabulary.

(** ** More vocabulary: the classifier *)

Section ClassifierVocabulary.
Import Classifier.

(** The content that the keyword rules and the external classifier get to
    see: the supplied one, or what the fetch makes of it. *)
Definition content_used (self : RegulationScraper) (url content : pyval) : pyval :=
  if negb (truthy content) && truthy url then
    match url with
    | PyStr u =>
        if startswith "http" u then fetch_content self u content else content
    | _ => content
    end
  else content.

(** The statuses a classification can end in. *)
Definition decided : list string :=
  [ "Prohibited"; "Requires Compliance"; "Reserved"; "Administrative" ].


(** A scraper without network whose analyzer is [llm]. *)
Definition with_llm (llm : Llm.LLMRegulationAnalyzer) : RegulationScraper :=
  {| llm_analyzer := Some llm; session_get := fun _ => HttpRaised |}.

(** An enabled analyzer whose model answers every request with [reply]. *)
Definition replying (reply : string) : Llm.LLMRegulationAnalyzer :=
  {| Llm.enabled := true; Llm.chat_completion := fun _ _ _ => Ok reply |}.

(** An enabled analyzer whose model goes by the content it is shown:
    Prohibited when that contains "shall not", no opinion otherwise. *)
Definition content_reader : Llm.LLMRegulationAnalyzer :=
  {| Llm.enabled := true;
     Llm.chat_completion := fun _ _ content_text =>
       if contains "shall not" (lower content_text)
       then Ok ("STATUS: Prohibited" +:+ Llm.newline
                  +:+ "REASON: content says shall not")
       else Ok "STATUS: Unknown" |}.

End ClassifierVocabulary.

(** ** More vocabulary: the refresh *)

Section RefreshVocabulary.
Import Store Classifier Refresh.

(** A row of the regulations table as the refresh stores it: its id, and a
    status among those a classification can end in. *)
Definition stored_ok (id : Z) (row : dict) : Prop :=
  row !! "id" = Some (PyInt id)
  /\ exists status, row !! "status" = Some (PyStr status) /\ In status decided.

(** A row of the change table as the refresh writes it for the regulation
    with the given id: one "added" row for the regulation as a whole, or an
    "updated" row for one of the compared fields with both values cut to
    500 characters. *)
Definition change_row_ok (id : Z) (row : dict) : Prop :=
  row !! "regulation_id" = Some (PyInt id)
  /\ ((row !! "change_type" = Some (PyStr "added")
       /\ row !! "field_name" = Some (PyStr "regulation")
       /\ row !! "old_value" = Some (PyStr ""))
      \/ (row !! "change_type" = Some (PyStr "updated")
          /\ exists field old new,
               In field fields_to_check
               /\ row !! "field_name" = Some (PyStr field)
               /\ row !! "old_value" = Some (PyStr old)
               /\ row !! "new_value" = Some (PyStr new)
               /\ (String.length old <= 500)%nat
               /\ (String.length new <= 500)%nat)).

(** One row written to the change table. *)
Definition change_row (db : database) (regulation_id : Z)
    (change_type field_name old_value new_value : string) : dict :=
  list_to_map
    [ ("id", PyInt (regulation_changes_seq db + 1));
      ("regulation_id", PyInt regulation_id);
      ("change_type", PyStr change_type); ("field_name", PyStr field_name);
      ("old_value", PyStr old_value); ("new_value", PyStr new_value);
      ("notified", PyInt 0) ].

(** What a stretch of the refresh did on its connection: it stored [rows],
    counted them, and wrote the change rows [added]. *)
Definition refreshed (s s' : session) (rows added : list dict) : Prop :=
  closed s' = false
  /\ regulations (current s') = regulations (current s) ++ rows
  /\ regulations_seq (current s')
     = (regulations_seq (current s) + Z.of_nat (length rows))%Z
  /\ regulation_changes (current s') = regulation_changes (current s) ++ added.

(** The ids of [rows] count up from [first]. *)
Definition ids_from (first : Z) (rows : list dict) : Prop :=
  forall k row, rows !! k = Some row -> stored_ok (first + Z.of_nat k) row.

(** Every change row belongs to one of [rows], numbered from [first]. *)
Definition changes_refer (first : Z) (rows added : list dict) : Prop :=
  Forall (fun change =>
            exists k row, rows !! k = Some row
                          /\ change_row_ok (first + Z.of_nat k) change)
         added.

End RefreshVocabulary.

(** ** More data to run the refresh on *)

Section RefreshSamples.
Import Store Classifier Refresh.

Definition sample_batch : list dict :=
  [ incoming "Part 1301" "Registration of manufacturers";
    incoming "Part 9" "Devices shall not be sold" ].

(** The connection after the replacement of [sample_db] by [sample_batch],
    before the commit, and what the loop reported. *)
Definition sample_refreshed : session :=
  snd (replace_store offline sample_batch (connect sample_db)).

Definition sample_detected : list dict :=
  match fst (replace_store offline sample_batch (connect sample_db)) with
  | Ok detected => detected
  | Raise _ => []
  end.

(** Three stored rows, the first two under one lookup key. *)
Definition colliding_rows : list dict :=
  [ sample_row "Part 1" "General" "Administrative";
    sample_row "Part 1" "General" "Reserved";
    sample_row "Part 2" "Other" "Requires Compliance" ].

Definition colliding_existing : gmap string dict :=
  match index_existing colliding_rows ∅ with
  | Ok existing_regs => existing_regs
  | Raise _ => ∅
  end.

End RefreshSamples.

(** ** The listing endpoints of [app.py] *)

Module Api.
Import Store.

(** [request.args.get(name, 'false').lower() == 'true']. *)
Definition flag (args : gmap string string) (name : string) : bool :=
  String.eqb (lower (default "false" (args !! name))) "true".

(** [X IS NOT NULL]. *)
Definition sql_not_null (v : pyval) : bool :=
  match v with
  | PyNone => false
  | _ => true
  end.

(** [GET /api/regulations]: the clauses that are appended to
    [SELECT * FROM regulations WHERE 1=1], and the rows. *)
Definition get_regulations (db : database) (args : gmap string string) : list dict :=
  let filter_parts_only := flag args "parts_only" in
  let include_administrative := flag args "include_administrative" in
  let include_reserved := flag args "include_reserved" in
  select_regulations
    (fun row =>
       (if filter_parts_only
        then sql_ne_text (column "part" row) "" && sql_not_null (column "part" row)
        else true)
       && (if negb include_administrative
           then sql_ne_text (column "status" row) "Administrative"
           else true)
       && (if negb include_reserved
           then sql_ne_text (column "status" row) "Reserved"
           else true))
    [ column "chapter"; column "subchapter"; column "part" ]
    db.

(** [id = ?] with an integer parameter. *)
Definition sql_eq_int (v : pyval) (n : Z) : bool :=
  match v with
  | PyInt m => Z.eqb m n
  | _ => false
  end.

(** [GET /api/regulations/<int:regulation_id>]: the body and the status
    code.  [fetchone] takes the first row of the table with the id. *)
Definition get_regulation (db : database) (regulation_id : Z) : dict * Z :=
  match List.filter (fun row => sql_eq_int (column "id" row) regulation_id)
          (regulations db) with
  | row :: _ => (dict_of_row regulations_columns row, 200%Z)
  | [] => ({[ "error" := PyStr "Regulation not found" ]}, 404%Z)
  end.

(** [s.split(sep, maxsplit)] for a non-empty [sep]. *)
Fixpoint split_max_go (sep s : string) (maxsplit skip : nat) (cur : string)
  : list string :=
  match s with
  | EmptyString => [cur]
  | String c s' =>
      match skip with
      | S k => split_max_go sep s' maxsplit k cur
      | O =>
          match maxsplit with
          | O => split_max_go sep s' 0 0 (cur +:+ String c EmptyString)
          | S m =>
              if startswith sep s
              then cur :: split_max_go sep s' m (String.length sep - 1) EmptyString
              else split_max_go sep s' maxsplit 0 (cur +:+ String c EmptyString)
          end
      end
  end.

Definition split_max (sep s : string) (maxsplit : nat) : list string :=
  split_max_go sep s maxsplit 0 EmptyString.

Definition NotIterable (v : pyval) : exn :=
  Exn "TypeError" ("argument of type '" +:+ type_name v +:+ "' is not iterable").

(** [get_recent_changes], "Try to extract part/description from new_value
    if JOIN didn't find the regulation": the part and the description that
    are reported for a change row, from the joined [part] and [description]
    and the row's [new_value]. *)
Definition change_part_description (part description new_value : pyval)
  : res (pyval * pyval) :=
  if negb (truthy part) && truthy new_value then
    match new_value with
    | PyStr text =>
        if contains "Part " text then
          part_match <- Llm.item (split ":" text) 0 ;;
          let part_match := strip part_match in
          let part := if startswith "Part " part_match then PyStr part_match
                      else part in
          if contains ":" text then
            rest <- Llm.item (split_max ":" text 1) 1 ;;
            Ok (part, PyStr (strip rest))
          else Ok (part, description)
        else Ok (part, description)
    | _ => Raise (NotIterable new_value)
    end
  else Ok (part, description).

End Api.

(* ===================================================================== *)
(** * Properties *)
(* ===================================================================== *)

(** ** Text *)

Section TextFacts.

Lemma startswith_refl (s t : string) : startswith s (s +:+ t) = true.
Proof.
  induction s as [|c s IH]; simpl; [reflexivity|].
  now rewrite Ascii.eqb_refl.
Qed.

Lemma contains_lstrip (kw s : string) :
  contains kw (lstrip s) = true -> contains kw s = true.
Proof.
  induction s as [|c s IH]; simpl; [easy|].
  destruct (is_space c); [|easy].
  intros H. rewrite (IH H). apply orb_true_r.
Qed.

Lemma startswith_empty_r (kw : string) :
  startswith kw EmptyString = true -> kw = EmptyString.
Proof. destruct kw; simpl; [reflexivity | discriminate]. Qed.

Lemma startswith_empty_l (s : string) : startswith EmptyString s = true.
Proof. destruct s; reflexivity. Qed.


(** A prefix of what is left after [rstrip] is a prefix of the text. *)
Lemma startswith_rstrip (kw s : string) :
  startswith kw (rstrip s) = true -> startswith kw s = true.
Proof.
  revert kw. induction s as [|c s IH]; intros kw; simpl; [easy|].
  destruct (rstrip s) as [|c' r] eqn:Hr.
  - destruct (is_space c).
    + intros H. apply startswith_empty_r in H. now subst.
    + destruct kw as [|k kw]; simpl; [easy|].
      intros H. apply andb_true_iff in H as [-> H].
      apply startswith_empty_r in H. subst. simpl. now destruct s.
  - destruct kw as [|k kw]; [easy|].
    cbn [startswith]. intros H. apply andb_true_iff in H as [-> H].
    simpl. now apply IH.
Qed.

Lemma contains_rstrip (kw s : string) :
  contains kw (rstrip s) = true -> contains kw s = true.
Proof.
  induction s as [|c s IH]; [easy|].
  intros H.
  assert (Hcases : startswith kw (rstrip (String c s)) = true
                   \/ contains kw (rstrip s) = true).
  { revert H. simpl. destruct (rstrip s) as [|c' r] eqn:Hr.
    - destruct (is_space c); simpl.
      + destruct kw; simpl; auto.
      + intros H. apply orb_true_iff in H as [H|H]; [now left|].
        right. exact H.
    - intros H. change (contains kw (String c (String c' r)) = true) in H.
      cbn [contains] in H. apply orb_true_iff in H as [H|H]; [now left|].
      right. exact H. }
  cbn [contains]. apply orb_true_iff.
  destruct Hcases as [H1|H1].
  - left. now apply startswith_rstrip.
  - right. now apply IH.
Qed.

Lemma contains_strip (kw s : string) :
  contains kw (strip s) = true -> contains kw s = true.
Proof. intros H. apply contains_lstrip, contains_rstrip, H. Qed.

Lemma append_assoc (a b c : string) : (a +:+ b) +:+ c = a +:+ b +:+ c.
Proof.
  induction a as [|x a IH]; [reflexivity|].
  change (String x ((a +:+ b) +:+ c) = String x (a +:+ b +:+ c)).
  now rewrite IH.
Qed.

(** A keyword without white space lies on one side of a white space
    character. *)
Lemma startswith_app_sep (kw a b : string) (c : ascii) :
  spaceless kw = true -> is_space c = true ->
  startswith kw (a +:+ String c b) = startswith kw a.
Proof.
  intros Hkw Hc. revert kw Hkw.
  induction a as [|x a IH]; intros [|k kw] Hkw; try reflexivity.
  - cbn in Hkw. apply andb_true_iff in Hkw as [Hk _].
    change (Ascii.eqb k c && startswith kw b = false).
    destruct (Ascii.eqb_spec k c) as [->|_]; [|reflexivity].
    rewrite Hc in Hk. discriminate.
  - cbn in Hkw. apply andb_true_iff in Hkw as [_ Hkw].
    change (Ascii.eqb k x && startswith kw (a +:+ String c b)
            = Ascii.eqb k x && startswith kw a).
    now rewrite (IH kw Hkw).
Qed.

Lemma contains_app_sep (kw a b : string) (c : ascii) :
  spaceless kw = true -> is_space c = true ->
  contains kw (a +:+ String c b) = contains kw a || contains kw b.
Proof.
  intros Hkw Hc. induction a as [|x a IH].
  - change (startswith kw (EmptyString +:+ String c b) || contains kw b
            = (startswith kw EmptyString || false) || contains kw b).
    rewrite (startswith_app_sep kw EmptyString b c Hkw Hc).
    now rewrite orb_false_r.
  - change (startswith kw (String x a +:+ String c b)
            || contains kw (a +:+ String c b)
            = (startswith kw (String x a) || contains kw a) || contains kw b).
    rewrite (startswith_app_sep kw (String x a) b c Hkw Hc), IH.
    now rewrite orb_assoc.
Qed.

Lemma startswith_rstrip_eq (kw s : string) :
  spaceless kw = true -> startswith kw (rstrip s) = startswith kw s.
Proof.
  intros Hkw. revert kw Hkw.
  induction s as [|c s IH]; intros kw Hkw; [reflexivity|].
  destruct kw as [|k kw]; [now destruct (rstrip (String c s))|].
  cbn in Hkw. apply andb_true_iff in Hkw as [Hk Hkw].
  specialize (IH kw Hkw).
  cbn [rstrip]. destruct (rstrip s) as [|c' r] eqn:Hr.
  - destruct (is_space c) eqn:Hc.
    + cbn. destruct (Ascii.eqb_spec k c) as [->|_]; [|reflexivity].
      rewrite Hc in Hk. discriminate.
    + change (Ascii.eqb k c && startswith kw EmptyString
              = Ascii.eqb k c && startswith kw s).
      now rewrite IH.
  - change (Ascii.eqb k c && startswith kw (String c' r)
            = Ascii.eqb k c && startswith kw s).
    now rewrite IH.
Qed.

Lemma contains_rstrip_eq (kw s : string) :
  spaceless kw = true -> contains kw (rstrip s) = contains kw s.
Proof.
  intros Hkw. induction s as [|c s IH]; [reflexivity|].
  change (contains kw (String c s))
    with (startswith kw (String c s) || contains kw s).
  rewrite <- (startswith_rstrip_eq kw (String c s) Hkw), <- IH.
  cbn [rstrip]. destruct (rstrip s) as [|c' r]; [|reflexivity].
  destruct (is_space c); [|reflexivity].
  cbn. now destruct (startswith kw EmptyString).
Qed.

Lemma lower_app (a b : string) : lower (a +:+ b) = lower a +:+ lower b.
Proof.
  induction a as [|x a IH]; [reflexivity|].
  change (String (lower_ascii x) (lower (a +:+ b))
          = String (lower_ascii x) (lower a +:+ lower b)).
  now rewrite IH.
Qed.

Lemma is_space_lower (c : ascii) : is_space (lower_ascii c) = is_space c.
Proof.
  destruct c as [b0 b1 b2 b3 b4 b5 b6 b7].
  destruct b0, b1, b2, b3, b4, b5, b6, b7; reflexivity.
Qed.

Lemma lower_lstrip (s : string) : lower (lstrip s) = lstrip (lower s).
Proof.
  induction s as [|c s IH]; [reflexivity|].
  cbn [lstrip lower]. rewrite is_space_lower.
  destruct (is_space c); [exact IH | reflexivity].
Qed.

Lemma lower_rstrip (s : string) : lower (rstrip s) = rstrip (lower s).
Proof.
  induction s as [|c s IH]; [reflexivity|].
  cbn [rstrip lower]. rewrite <- IH, is_space_lower.
  destruct (rstrip s) as [|c' r]; [|reflexivity].
  cbn [lower]. now destruct (is_space c).
Qed.

Lemma lower_strip (s : string) : lower (strip s) = strip (lower s).
Proof. unfold strip. now rewrite lower_rstrip, lower_lstrip. Qed.

(** After the description and a space, the text "none" adds no match for a
    keyword that has no white space and does not occur in "none". *)
Lemma contains_strip_none (kw d : string) :
  spaceless kw = true ->
  contains kw "none" = false ->
  contains kw (strip (d +:+ " none")) = contains kw (strip (d +:+ " ")).
Proof.
  intros Hkw Hnone.
  assert (Hempty : contains kw EmptyString = false).
  { destruct kw; [discriminate Hnone | reflexivity]. }
  unfold strip. induction d as [|c d IH].
  - change (contains kw "none" = contains kw EmptyString).
    now rewrite Hnone, Hempty.
  - change (String c d +:+ " none") with (String c (d +:+ " none")).
    change (String c d +:+ " ") with (String c (d +:+ " ")).
    cbn [lstrip]. destruct (is_space c); [exact IH|].
    rewrite !contains_rstrip_eq by exact Hkw.
    change (String c (d +:+ " none")) with (String c d +:+ String " " "none").
    change (String c (d +:+ " ")) with (String c d +:+ String " " EmptyString).
    rewrite !contains_app_sep by (exact Hkw || reflexivity).
    now rewrite Hnone, Hempty.
Qed.

Lemma any_in_intro (kws : list string) (s kw : string) :
  In kw kws -> contains kw s = true -> any_in kws s = true.
Proof.
  intros Hin Hc. apply existsb_exists. exists kw. now split.
Qed.

End TextFacts.

Example lower_ex : lower "Shall NOT, part 21" = "shall not, part 21".
Proof. reflexivity. Qed.

Example strip_ex : strip "  Chapter I " = "Chapter I".
Proof. reflexivity. Qed.

Example split_ex : split "::" "a::b:c::" = ["a"; "b:c"; ""].
Proof. reflexivity. Qed.

Example str_ex : str (PyInt (-12)) = "-12" /\ string_of_nat 0 = "0".
Proof. split; reflexivity. Qed.

(** ** The status classifier *)

#[global] Arguments startswith : simpl never.
#[global] Arguments contains : simpl never.
#[global] Arguments lower : simpl never.
#[global] Arguments strip : simpl never.
#[global] Arguments take : simpl never.
#[global] Arguments split : simpl never.

Section ClassifierFacts.
Import Classifier.

Lemma offline_silent (description url : pyval) : llm_silent offline description url.
Proof. intros content. reflexivity. Qed.


(** The same, with the content named. *)
Lemma analyze_text_eq (self : RegulationScraper) (d : string) (url content : pyval) :
  text_or_none url ->
  analyze_regulation_status self (PyStr d) url content =
  Ok (match llm_override self (PyStr d) url (content_used self url content) with
      | Some result => result
      | None =>
          keyword_rules (lower d)
            (lower (strip (d +:+ " " +:+ str (content_used self url content))))
      end).
Proof.
  intros Hurl. unfold analyze_regulation_status, content_used.
  destruct (negb (truthy content) && truthy url) eqn:Hfetch.
  - destruct url as [|u|n]; [| |destruct Hurl].
    + simpl in Hfetch. now rewrite andb_false_r in Hfetch.
    + cbn [py_startswith bind str]. destruct (startswith "http" u); cbn [bind];
        now destruct (llm_override _ _ _ _).
  - cbn [bind]. now destruct (llm_override _ _ _ _).
Qed.

(** The status the external classifier hands back is one of the five. *)
Lemma normalize_status_valid (status : string) :
  In (Llm.normalize_status status) statuses.
Proof.
  unfold Llm.normalize_status, statuses.
  repeat match goal with
         | |- context [if ?c then _ else _] => destruct c
         end; simpl; tauto.
Qed.

Lemma parse_response_valid (reply status reason : string) :
  Llm.parse_response reply = Ok (status, reason) -> In status statuses.
Proof.
  unfold Llm.parse_response.
  destruct (contains "STATUS:" reply).
  - destruct (Llm.item _ 0) as [status_line|]; simpl; [|discriminate].
    destruct (Llm.item _ 1) as [raw|]; simpl; [|discriminate].
    destruct (contains "REASON:" reply); simpl.
    + destruct (Llm.item _ 0) as [reason_line|]; simpl; [|discriminate].
      destruct (Llm.item _ 1) as [raw'|]; simpl; [|discriminate].
      intros [= <- _]. apply normalize_status_valid.
    + intros [= <- _]. apply normalize_status_valid.
  - simpl. destruct (contains "REASON:" reply); simpl.
    + destruct (Llm.item _ 0) as [reason_line|]; simpl; [|discriminate].
      destruct (Llm.item _ 1) as [raw'|]; simpl; [|discriminate].
      intros [= <- _]. unfold statuses. simpl. tauto.
    + intros [= <- _]. unfold statuses. simpl. tauto.
Qed.

Lemma llm_status_valid (llm : Llm.LLMRegulationAnalyzer)
    (description url content : pyval) :
  In (fst (Llm.analyze_regulation_status llm description url content)) statuses.
Proof.
  unfold Llm.analyze_regulation_status.
  destruct (negb (Llm.enabled llm)); [unfold statuses; simpl; tauto|].
  match goal with
  | |- context [match ?body with Ok _ => _ | Raise _ => _ end] =>
      destruct body as [[status reason]|e] eqn:Hbody
  end; [|unfold statuses; simpl; tauto].
  simpl.
  destruct (if truthy content then py_take 3000 content
            else Ok "No content available") as [content_text|];
    simpl in Hbody; [|discriminate].
  destruct (Llm.chat_completion llm _ _ _) as [response|];
    simpl in Hbody; [|discriminate].
  eapply parse_response_valid, Hbody.
Qed.

Lemma llm_override_valid (self : RegulationScraper)
    (description url content : pyval) (result : string * string) :
  llm_override self description url content = Some result ->
  In (fst result) statuses.
Proof.
  unfold llm_override.
  destruct (llm_analyzer self) as [llm|]; [|discriminate].
  destruct (Llm.enabled llm); [|discriminate].
  destruct (negb _); [|discriminate].
  intros [= <-]. apply llm_status_valid.
Qed.

(** The keyword rules end in one of four statuses, never in "Unknown". *)
Lemma keyword_rules_valid (description_lower full_text_lower : string) :
  In (fst (keyword_rules description_lower full_text_lower))
     [ "Prohibited"; "Requires Compliance"; "Reserved"; "Administrative" ].
Proof.
  unfold keyword_rules. cbv zeta.
  repeat match goal with
         | |- context [if ?c then _ else _] => destruct c
         end; simpl; tauto.
Qed.

(** C3 (amended).  A description that contains a strong prohibition phrase
    is classified Prohibited wherever the keyword rules decide, whatever
    else it contains (requirement keywords included) and whatever the
    content says: the phrase check is the first rule.  The keyword rules
    decide unless an enabled external classifier gives a verdict other than
    "Unknown"; such a verdict is returned as it is. *)
Theorem prohibition_phrase_wins (self : RegulationScraper) (d : string)
    (url content : pyval) (phrase : string) :
  In phrase prohibited_phrases ->
  contains phrase (lower d) = true ->
  text_or_none url ->
  analyze_regulation_status self (PyStr d) url content =
  Ok (match llm_override self (PyStr d) url (content_used self url content) with
      | Some verdict => verdict
      | None =>
          ("Prohibited",
           "Regulation explicitly prohibits activities (prohibition phrase found in description)")
      end).
Proof.
  intros Hin Hphrase Hurl.
  rewrite (analyze_text_eq self d url content Hurl).
  destruct (llm_override self (PyStr d) url _); [reflexivity|].
  unfold keyword_rules. cbv zeta.
  now rewrite (any_in_intro _ _ _ Hin Hphrase).
Qed.

Lemma prohibition_phrase_wins_witness :
  analyze_regulation_status offline
    (PyStr "Persons shall not sell devices without registration and labeling")
    (PyStr "") (PyStr "") =
  Ok ("Prohibited",
      "Regulation explicitly prohibits activities (prohibition phrase found in description)").
Proof.
  apply (prohibition_phrase_wins offline
           "Persons shall not sell devices without registration and labeling"
           (PyStr "") (PyStr "") "shall not").
  - simpl. tauto.
  - reflexivity.
  - exact I.
Defined.

(** As first stated it fails: with an analyzer that answers Administrative,
    a description with "shall not" in it is classified Administrative, while
    the keyword rules alone make it Prohibited. *)
Lemma prohibition_phrase_overruled :
  any_in prohibited_phrases
    (lower "Persons shall not sell devices without registration and labeling")
  = true
  /\ analyze_regulation_status
       (with_llm (replying ("STATUS: Administrative" +:+ Llm.newline
                              +:+ "REASON: the model says so")))
       (PyStr "Persons shall not sell devices without registration and labeling")
       (PyStr "") (PyStr "")
     = Ok ("Administrative", "the model says so")
  /\ analyze_regulation_status offline
       (PyStr "Persons shall not sell devices without registration and labeling")
       (PyStr "") (PyStr "")
     = Ok ("Prohibited",
           "Regulation explicitly prohibits activities (prohibition phrase found in description)").
Proof. repeat split; vm_compute; reflexivity. Qed.

(** C4 (amended).  Without a prohibition phrase and with fewer than two
    prohibition keywords in the description, the keyword rules never answer
    Prohibited, whatever the supplied or fetched content contains; the
    result is the verdict of the external classifier where that gives one
    other than "Unknown", and a status other than Prohibited everywhere
    else. *)
Theorem content_never_prohibits (self : RegulationScraper) (d : string)
    (url content : pyval) :
  any_in prohibited_phrases (lower d) = false ->
  (count_in prohibited_keywords (lower d) < 2)%nat ->
  text_or_none url ->
  exists status reason,
    analyze_regulation_status self (PyStr d) url content = Ok (status, reason)
    /\ match llm_override self (PyStr d) url (content_used self url content) with
       | Some verdict => (status, reason) = verdict
       | None => status <> "Prohibited"
       end.
Proof.
  intros Hphrase Hcount Hurl.
  rewrite (analyze_text_eq self d url content Hurl).
  destruct (llm_override self (PyStr d) url _) as [[status reason]|].
  - exists status, reason. split; reflexivity.
  - unfold keyword_rules. cbv zeta. rewrite Hphrase.
    apply Nat.leb_gt in Hcount. rewrite Hcount.
    repeat match goal with
           | |- context [if ?c then _ else _] => destruct c
           end; do 2 eexists; (split; [reflexivity | discriminate]).
Qed.

Lemma content_never_prohibits_witness :
  exists status reason,
    analyze_regulation_status offline
      (PyStr "Labeling requirements for medical devices") (PyStr "")
      (PyStr "...manufacturer shall not omit the required warning...")
    = Ok (status, reason)
    /\ status <> "Prohibited".
Proof.
  apply (content_never_prohibits offline
           "Labeling requirements for medical devices" (PyStr "")
           (PyStr "...manufacturer shall not omit the required warning...")).
  - reflexivity.
  - vm_compute. lia.
  - exact I.
Defined.

(** As first stated it fails: the external classifier is shown the content,
    and with [content_reader] as analyzer a description without prohibition
    language is classified Prohibited for a content with "shall not" in it,
    and by the keyword rules for a content without. *)
Lemma content_prohibits_through_llm :
  any_in prohibited_phrases (lower "Labeling requirements for medical devices")
  = false
  /\ count_in prohibited_keywords
       (lower "Labeling requirements for medical devices") = 0%nat
  /\ analyze_regulation_status (with_llm content_reader)
       (PyStr "Labeling requirements for medical devices") (PyStr "")
       (PyStr "...manufacturer shall not omit the required warning...")
     = Ok ("Prohibited", "content says shall not")
  /\ analyze_regulation_status (with_llm content_reader)
       (PyStr "Labeling requirements for medical devices") (PyStr "")
       (PyStr "...the label carries the required warning...")
     = Ok ("Requires Compliance",
           "Establishes regulatory requirements that must be followed").
Proof. repeat split; vm_compute; reflexivity. Qed.



(** *** None in the place of an empty url or content *)

Lemma count_in_ext (kws : list string) (s t : string) :
  (forall kw, In kw kws -> contains kw s = contains kw t) ->
  count_in kws s = count_in kws t.
Proof.
  unfold count_in. induction kws as [|kw kws IH]; intros H; [reflexivity|].
  cbn [List.filter]. rewrite (H kw) by (left; reflexivity).
  assert (IH' : length (List.filter (fun kw => contains kw s) kws)
                = length (List.filter (fun kw => contains kw t) kws)).
  { apply IH. intros k Hk. apply H. now right. }
  destruct (contains kw t); cbn [length]; now rewrite IH'.
Qed.

Lemma full_text_none (kw d : string) :
  spaceless kw = true ->
  contains kw "none" = false ->
  contains kw (lower (strip (d +:+ " " +:+ str PyNone)))
  = contains kw (lower (strip (d +:+ " " +:+ str (PyStr "")))).
Proof.
  intros Hkw Hnone.
  change (d +:+ " " +:+ str PyNone) with (d +:+ " None").
  change (d +:+ " " +:+ str (PyStr "")) with (d +:+ " ").
  rewrite !lower_strip, !lower_app.
  change (lower " None") with " none". change (lower " ") with " ".
  now apply contains_strip_none.
Qed.

(** The keyword rules read the full text for "reserved" and for the
    allowance keywords only; "none" at its end changes neither. *)
Lemma keyword_rules_none (description_lower d : string) :
  keyword_rules description_lower (lower (strip (d +:+ " " +:+ str PyNone)))
  = keyword_rules description_lower
      (lower (strip (d +:+ " " +:+ str (PyStr "")))).
Proof.
  unfold keyword_rules. cbv zeta.
  rewrite (full_text_none "reserved" d) by reflexivity.
  rewrite (count_in_ext allowed_keywords
             (lower (strip (d +:+ " " +:+ str PyNone)))
             (lower (strip (d +:+ " " +:+ str (PyStr ""))))).
  - reflexivity.
  - intros kw Hin. unfold allowed_keywords in Hin.
    repeat (destruct Hin as [<-|Hin]; [now apply full_text_none|]).
    destruct Hin.
Qed.

(** The external classifier is asked the same for a content that is None
    and for the empty content. *)
Lemma llm_override_none (self : RegulationScraper) (description url : pyval) :
  llm_override self description url PyNone
  = llm_override self description url (PyStr "").
Proof. reflexivity. Qed.

(** A content that is None is classified as the empty content is. *)
Lemma none_content_as_empty (self : RegulationScraper) (d : string)
    (url : pyval) :
  text_or_none url ->
  analyze_regulation_status self (PyStr d) url PyNone
  = analyze_regulation_status self (PyStr d) url (PyStr "").
Proof.
  intros Hurl. unfold analyze_regulation_status.
  change (truthy PyNone) with false. change (truthy (PyStr "")) with false.
  cbn [negb andb].
  assert (Hrules : forall content content',
             content = content' \/ (content = PyNone /\ content' = PyStr "") ->
             (let full_text := lower (strip (d +:+ " " +:+ str content)) in
              match llm_override self (PyStr d) url content with
              | Some result => Ok result
              | None =>
                  description_lower <- py_lower (PyStr d) ;;
                  Ok (keyword_rules description_lower full_text)
              end)
             = (let full_text := lower (strip (d +:+ " " +:+ str content')) in
                match llm_override self (PyStr d) url content' with
                | Some result => Ok result
                | None =>
                    description_lower <- py_lower (PyStr d) ;;
                    Ok (keyword_rules description_lower full_text)
                end)).
  { intros content content' [->|[-> ->]]; [reflexivity|].
    cbv zeta. rewrite llm_override_none. cbn [py_lower bind].
    now rewrite keyword_rules_none. }
  destruct url as [|u|n]; [apply Hrules; now right| |destruct Hurl].
  destruct (truthy (PyStr u)); [|apply Hrules; now right].
  cbn [py_startswith bind].
  destruct (startswith "http" u); cbn [bind]; [|apply Hrules; now right].
  apply Hrules. unfold fetch_content.
  destruct (session_get self (str (PyStr u))) as [| |[text_content|] para_text];
    auto.
Qed.

(** A url that is None is classified as the empty url is. *)
Lemma none_url_as_empty (self : RegulationScraper) (d : string)
    (content : pyval) :
  llm_silent self (PyStr d) PyNone ->
  llm_silent self (PyStr d) (PyStr "") ->
  analyze_regulation_status self (PyStr d) PyNone content
  = analyze_regulation_status self (PyStr d) (PyStr "") content.
Proof.
  intros Hnone Hempty. unfold analyze_regulation_status.
  change (truthy PyNone) with false. change (truthy (PyStr "")) with false.
  rewrite !andb_false_r. cbn [bind]. now rewrite Hnone, Hempty.
Qed.



Example none_as_empty_ex :
  analyze_regulation_status offline (PyStr "Can") PyNone PyNone
  = analyze_regulation_status offline (PyStr "Can") (PyStr "") (PyStr "").
Proof.
  rewrite (none_content_as_empty offline "Can" PyNone I).
  apply none_url_as_empty; apply offline_silent.
Qed.

Example reserved_ex :
  analyze_regulation_status offline (PyStr "[Reserved]") (PyStr "") (PyStr "")
  = Ok ("Reserved", "Regulation section is reserved for future use").
Proof. reflexivity. Qed.

Example definitions_ex :
  analyze_regulation_status offline (PyStr "Definitions") (PyStr "") (PyStr "")
  = Ok ("Administrative", "Definitions section").
Proof. reflexivity. Qed.

Example content_isolation_ex :
  analyze_regulation_status offline
    (PyStr "Labeling requirements for medical devices") (PyStr "")
    (PyStr "...manufacturer shall not omit the required warning...")
  = Ok ("Requires Compliance",
        "Establishes regulatory requirements that must be followed").
Proof. reflexivity. Qed.

Example two_keywords_ex :
  analyze_regulation_status offline (PyStr "Banned and unlawful imports")
    PyNone PyNone
  = Ok ("Prohibited", "Contains 3 prohibition indicator(s) in description").
Proof. reflexivity. Qed.

End ClassifierFacts.

(** ** Keyword search *)

Section SearchFacts.
Import Store Search.

Lemma in_insert_by {A} (le : A -> A -> bool) (x y : A) (l : list A) :
  In x (insert_by le y l) <-> x = y \/ In x l.
Proof.
  induction l as [|z l IH]; simpl; [intuition auto|].
  destruct (le y z); simpl; [intuition auto|].
  rewrite IH. intuition auto.
Qed.

(** [ORDER BY] returns the rows it was given. *)
Lemma in_order_by (terms : list (dict -> pyval)) (rows : list dict) (r : dict) :
  In r (order_by terms rows) <-> In r rows.
Proof.
  unfold order_by. induction rows as [|y rows IH]; simpl; [tauto|].
  rewrite in_insert_by, IH. intuition auto.
Qed.

Lemma dict_of_row_status (row : dict) :
  dict_of_row regulations_columns row !! "status" = Some (column "status" row).
Proof. unfold dict_of_row, regulations_columns, column. simpl. by simplify_map_eq. Qed.

(** Every row of a [SELECT] satisfies its [WHERE] clause. *)
Lemma select_regulations_where (where_ : dict -> bool)
    (terms : list (dict -> pyval)) (db : database) (r : dict) :
  In r (select_regulations where_ terms db) ->
  exists row, r = dict_of_row regulations_columns row
              /\ In row (regulations db) /\ where_ row = true.
Proof.
  unfold select_regulations. intros H.
  apply in_map_iff in H as (row & <- & H).
  apply in_order_by, filter_In in H as [Hin Hw].
  exists row. auto.
Qed.

Lemma reserved_clause_status (row : dict) :
  reserved_clause true row = true ->
  column "status" row <> PyStr "Reserved".
Proof.
  unfold reserved_clause, sql_ne_text.
  destruct (column "status" row) as [|s|n]; try discriminate.
  intros H [= ->]. now rewrite String.eqb_refl in H.
Qed.

(** Membership of a list of dicts, decided. *)
Lemma in_decided (l : list dict) (r : dict) :
  existsb (fun x => bool_decide (x = r)) l = true -> In r l.
Proof.
  intros H. apply existsb_exists in H as (x & Hx & Heq).
  apply bool_decide_eq_true_1 in Heq. now subst.
Qed.

(** C10.  When the lowered query does not contain "reserved", no
    regulation that keyword search returns has the status Reserved. *)
Theorem search_excludes_reserved (db : database) (query : string) (r : dict) :
  contains "reserved" (lower query) = false ->
  In r (search_regulations db query) ->
  r !! "status" <> Some (PyStr "Reserved").
Proof.
  intros Hq Hin.
  assert (Hex : negb (contains "reserved" (strip (lower query))) = true).
  { destruct (contains "reserved" (strip (lower query))) eqn:Hc; [|reflexivity].
    apply contains_strip in Hc. congruence. }
  unfold search_regulations in Hin. cbv zeta in Hin. rewrite Hex in Hin.
  assert (Hrow : exists row, r = dict_of_row regulations_columns row
                             /\ reserved_clause true row = true).
  { destruct (re_search section_pattern _); [|destruct (re_search part_pattern _)];
      apply select_regulations_where in Hin as (row & -> & _ & Hw);
      apply andb_true_iff in Hw as [_ Hw]; eauto. }
  destruct Hrow as (row & -> & Hres).
  rewrite dict_of_row_status. intros [= Heq].
  now apply reserved_clause_status in Hres.
Qed.

Lemma search_excludes_reserved_witness :
  dict_of_row regulations_columns
    (sample_row "Part 1301" "Registration of manufacturers" "Requires Compliance")
    !! "status"
  <> Some (PyStr "Reserved").
Proof.
  apply (search_excludes_reserved sample_db "Part 130").
  - reflexivity.
  - apply (in_decided (search_regulations sample_db "Part 130")).
    vm_compute. reflexivity.
Defined.

Example search_part_ex :
  List.map (fun r => r !! "part") (search_regulations sample_db "Part 130")
  = [Some (PyStr "Part 1301")].
Proof. vm_compute. reflexivity. Qed.

Example search_reserved_ex :
  List.map (fun r => r !! "part") (search_regulations sample_db "reserved")
  = [Some (PyStr "Part 1302")].
Proof. vm_compute. reflexivity. Qed.

Example search_number_ex :
  List.map (fun r => r !! "part") (search_regulations sample_db "1302") = []
  /\ re_search part_pattern "part  13021 x" = Some "13021"
  /\ re_search section_pattern "see section 123456.78" = Some "23456.78".
Proof. vm_compute. auto. Qed.

End SearchFacts.

(** ** Store replacement and change detection *)

Section RefreshFacts.
Import Store Classifier Refresh.

Lemma keeps_file_ret {A} (a : A) : keeps_file (ret a).
Proof. intros s r s' Hc [= <- <-]. auto. Qed.

Lemma keeps_file_lift {A} (r : res A) : keeps_file (lift r).
Proof. intros s r' s' Hc [= <- <-]. auto. Qed.

Lemma keeps_file_select {A} (q : database -> A) : keeps_file (execute_select q).
Proof.
  intros s r s' Hc. unfold execute_select. rewrite Hc. intros [= <- <-]. auto.
Qed.

Lemma keeps_file_write {A} (w : database -> A * database) :
  keeps_file (execute_write w).
Proof.
  intros s r s' Hc. unfold execute_write. rewrite Hc. intros [= <- <-]. auto.
Qed.

Lemma keeps_file_bind {A B} (m : M A) (f : A -> M B) :
  keeps_file m -> (forall a, keeps_file (f a)) -> keeps_file (mbind m f).
Proof.
  intros Hm Hf s r s' Hc. unfold mbind.
  destruct (m s) as [[a|e] s1] eqn:Hms.
  - destruct (Hm _ _ _ Hc Hms) as [Hfile Hclosed].
    intros Hfa. destruct (Hf a _ _ _ Hclosed Hfa) as [Hfile' Hclosed'].
    split; congruence.
  - intros [= <- <-]. eapply Hm; eauto.
Qed.

Ltac solve_keeps_file :=
  repeat first
    [ apply keeps_file_ret
    | apply keeps_file_lift
    | apply keeps_file_select
    | apply keeps_file_write
    | apply keeps_file_bind; [|intros ?] ].

Lemma keeps_file_record_updates (old reg : dict) (id : Z) (fields : list string) :
  keeps_file (record_updates old reg id fields).
Proof.
  induction fields as [|field fields IH]; simpl; [solve_keeps_file|].
  destruct (negb _); [|exact IH].
  apply keeps_file_bind; [solve_keeps_file|intros _].
  apply keeps_file_bind; [exact IH|intros rest]. solve_keeps_file.
Qed.

Lemma keeps_file_record_added (reg : dict) (id : Z) :
  keeps_file (record_added reg id).
Proof. unfold record_added. solve_keeps_file. Qed.

Lemma keeps_file_refresh_record (scraper : RegulationScraper)
    (existing_regs : gmap string dict) (reg : dict) :
  keeps_file (refresh_record scraper existing_regs reg).
Proof.
  unfold refresh_record.
  apply keeps_file_bind; [solve_keeps_file|intros reg'].
  apply keeps_file_bind; [solve_keeps_file|intros key].
  apply keeps_file_bind; [solve_keeps_file|intros id].
  destruct (existing_regs !! key) as [old|].
  - destruct (dict_truthy old).
    + apply keeps_file_record_updates.
    + apply keeps_file_record_added.
  - apply keeps_file_record_added.
Qed.

Lemma keeps_file_refresh_loop (scraper : RegulationScraper)
    (existing_regs : gmap string dict) (regulations : list dict) :
  keeps_file (refresh_loop scraper existing_regs regulations).
Proof.
  induction regulations as [|reg regulations IH]; simpl; [solve_keeps_file|].
  apply keeps_file_bind; [apply keeps_file_refresh_record|intros changes].
  apply keeps_file_bind; [exact IH|intros rest]. solve_keeps_file.
Qed.

(** Up to the first [commit] nothing reaches the file. *)
Lemma keeps_file_replace_store (scraper : RegulationScraper)
    (regulations : list dict) :
  keeps_file (replace_store scraper regulations).
Proof.
  unfold replace_store.
  apply keeps_file_bind; [solve_keeps_file|intros rows].
  apply keeps_file_bind; [solve_keeps_file|intros existing_regs].
  apply keeps_file_bind; [solve_keeps_file|intros _].
  apply keeps_file_refresh_loop.
Qed.

(** C7.  A refresh that raises before its store replacement is through
    leaves the committed store exactly as it was, and the exception is what
    the run ends with. *)
Theorem failed_refresh_rolls_back (scraper : RegulationScraper)
    (regulations : list dict) (db : database) (e : exn) (s : session) :
  replace_store scraper regulations (connect db) = (Raise e, s) ->
  run_update scraper regulations db = (Raise e, db).
Proof.
  intros Hfail.
  destruct (keeps_file_replace_store scraper regulations (connect db) _ _ eq_refl Hfail)
    as [Hfile _].
  unfold run_update, update_regulations, mbind. rewrite Hfail. simpl.
  now rewrite Hfile.
Qed.


Lemma failed_refresh_rolls_back_witness :
  run_update offline
    [ incoming "Part 1301" "Registration of manufacturers"; broken_record ]
    sample_db
  = (Raise (Exn "AttributeError" "'NoneType' object has no attribute 'lower'"),
     sample_db).
Proof.
  apply (failed_refresh_rolls_back offline _ sample_db _
           (snd (replace_store offline
                   [ incoming "Part 1301" "Registration of manufacturers";
                     broken_record ]
                   (connect sample_db)))).
  vm_compute. reflexivity.
Defined.

(** Writing statements on an open connection. *)
Lemma execute_write_open {A} (w : database -> A * database) (s : session) :
  closed s = false ->
  execute_write w s =
  (Ok (fst (w (current s))),
   {| file := file s; txn := Some (snd (w (current s))); closed := false |}).
Proof. intros Hc. unfold execute_write. now rewrite Hc. Qed.

(** C9.  An incoming record whose lookup key is not among the stored ones
    adds exactly one row to the change table: type "added", field
    "regulation", empty old value, and part, ": " and the first hundred
    characters of the description as new value. *)
Theorem added_record_emits_one_change (scraper : RegulationScraper)
    (existing_regs : gmap string dict) (reg reg' : dict)
    (part description : string) (s : session) :
  closed s = false ->
  prepare scraper reg = Ok reg' ->
  get reg' "part" (text "") = PyStr part ->
  get reg' "description" (text "") = PyStr description ->
  existing_regs !! (part +:+ "|" +:+ take 100 description) = None ->
  exists changes s' row,
    refresh_record scraper existing_regs reg s = (Ok changes, s')
    /\ regulation_changes (current s') = regulation_changes (current s) ++ [row]
    /\ row !! "change_type" = Some (PyStr "added")
    /\ row !! "field_name" = Some (PyStr "regulation")
    /\ row !! "old_value" = Some (PyStr "")
    /\ row !! "new_value" = Some (PyStr (part +:+ ": " +:+ take 100 description))
    /\ row !! "regulation_id" = Some (PyInt (regulations_seq (current s) + 1)).
Proof.
  intros Hopen Hprep Hpart Hdesc Hnew.
  unfold refresh_record, mbind, lift. rewrite Hprep.
  unfold lookup_key. rewrite Hdesc, Hpart. cbn [py_take bind str].
  rewrite Hnew, (execute_write_open _ s Hopen).
  unfold record_added, mbind, lift. rewrite Hpart, Hdesc.
  cbn [py_concat py_take].
  rewrite execute_write_open by reflexivity.
  do 3 eexists. split; [reflexivity|].
  split; [reflexivity|].
  rewrite append_assoc. repeat split; reflexivity.
Qed.

Lemma added_record_emits_one_change_witness :
  exists changes s' row,
    refresh_record offline ∅ (incoming "Part 9" "Devices shall not be sold")
      (after_delete sample_db) = (Ok changes, s')
    /\ regulation_changes (current s')
       = regulation_changes (current (after_delete sample_db)) ++ [row]
    /\ row !! "change_type" = Some (PyStr "added")
    /\ row !! "field_name" = Some (PyStr "regulation")
    /\ row !! "old_value" = Some (PyStr "")
    /\ row !! "new_value"
       = Some (PyStr ("Part 9" +:+ ": " +:+ take 100 "Devices shall not be sold"))
    /\ row !! "regulation_id"
       = Some (PyInt (regulations_seq (current (after_delete sample_db)) + 1)).
Proof.
  apply (added_record_emits_one_change offline ∅
           (incoming "Part 9" "Devices shall not be sold")
           (<["status_reason" :=
                text "Regulation explicitly prohibits activities (prohibition phrase found in description)"]>
              (<["status" := text "Prohibited"]>
                 (normalize (incoming "Part 9" "Devices shall not be sold"))))).
  - reflexivity.
  - reflexivity.
  - reflexivity.
  - reflexivity.
  - reflexivity.
Defined.

Lemma record_updates_same (old reg : dict) (id : Z) (fields : list string)
    (s : session) :
  (forall field, In field fields -> field_text old field = field_text reg field) ->
  record_updates old reg id fields s = (Ok [], s).
Proof.
  induction fields as [|field fields IH]; intros Hsame; [reflexivity|].
  cbn [record_updates]. rewrite (Hsame field) by (left; reflexivity).
  rewrite String.eqb_refl. cbn [negb].
  apply IH. intros f Hf. apply Hsame. now right.
Qed.

Lemma refresh_record_same (scraper : RegulationScraper)
    (existing_regs : gmap string dict) (reg reg' old : dict) (key : string)
    (s : session) :
  closed s = false ->
  prepare scraper reg = Ok reg' ->
  lookup_key reg' = Ok key ->
  existing_regs !! key = Some old ->
  dict_truthy old = true ->
  same_fields old reg' ->
  exists s',
    refresh_record scraper existing_regs reg s = (Ok [], s')
    /\ closed s' = false
    /\ regulation_changes (current s') = regulation_changes (current s).
Proof.
  intros Hopen Hprep Hkey Hold Htruthy Hsame.
  unfold refresh_record, mbind, lift. rewrite Hprep, Hkey, Hold, Htruthy.
  rewrite (execute_write_open _ s Hopen).
  rewrite (record_updates_same old reg' _ fields_to_check _ Hsame).
  eexists. split; [reflexivity|]. split; reflexivity.
Qed.

(** The loop over records that all come back unchanged. *)
Lemma refresh_loop_same (scraper : RegulationScraper)
    (existing_regs : gmap string dict) (regulations : list dict) (s : session) :
  closed s = false ->
  (forall reg, In reg regulations ->
     exists reg' key old,
       prepare scraper reg = Ok reg'
       /\ lookup_key reg' = Ok key
       /\ existing_regs !! key = Some old
       /\ dict_truthy old = true
       /\ same_fields old reg') ->
  exists s',
    refresh_loop scraper existing_regs regulations s = (Ok [], s')
    /\ regulation_changes (current s') = regulation_changes (current s).
Proof.
  revert s. induction regulations as [|reg regulations IH]; intros s Hopen Hall.
  - exists s. split; reflexivity.
  - destruct (Hall reg (or_introl eq_refl))
      as (reg' & key & old & Hprep & Hkey & Hold & Htruthy & Hsame).
    destruct (refresh_record_same scraper existing_regs reg reg' old key s
                Hopen Hprep Hkey Hold Htruthy Hsame)
      as (s1 & Hstep & Hopen1 & Hchanges1).
    destruct (IH s1 Hopen1) as (s2 & Hrest & Hchanges2).
    { intros r Hr. apply Hall. now right. }
    exists s2. split; [|congruence].
    cbn [refresh_loop]. unfold mbind. rewrite Hstep, Hrest. reflexivity.
Qed.

(** C8.  When every incoming record finds its lookup key among the stored
    rows and reads the same in description, status, url and section_range
    (None and missing read as the empty text), the refresh adds nothing to
    the change table and reports no change. *)
Theorem unchanged_records_emit_nothing (scraper : RegulationScraper)
    (existing_regs : gmap string dict) (regulations : list dict) (s : session) :
  closed s = false ->
  (forall reg, In reg regulations ->
     exists reg' key old,
       prepare scraper reg = Ok reg'
       /\ lookup_key reg' = Ok key
       /\ existing_regs !! key = Some old
       /\ dict_truthy old = true
       /\ same_fields old reg') ->
  exists s',
    refresh_loop scraper existing_regs regulations s = (Ok [], s')
    /\ regulation_changes (current s') = regulation_changes (current s).
Proof. apply refresh_loop_same. Qed.

(** A row read from the store is a dict with every column as a key, so it
    is never empty. *)
Lemma dict_of_row_truthy (row : dict) :
  dict_truthy (dict_of_row regulations_columns row) = true.
Proof.
  unfold dict_truthy. apply negb_true_iff, bool_decide_eq_false. intros H.
  pose proof (dict_of_row_status row) as Hs. rewrite H in Hs.
  rewrite lookup_empty in Hs. discriminate.
Qed.

Lemma index_existing_values (rows : list dict) (m m' : gmap string dict)
    (key : string) (old : dict) :
  index_existing rows m = Ok m' ->
  m' !! key = Some old ->
  In old rows \/ m !! key = Some old.
Proof.
  revert m. induction rows as [|row rows IH]; intros m.
  - intros [= <-]. auto.
  - cbn [index_existing].
    destruct (lookup_key row) as [k|]; [|discriminate]. cbn [bind].
    intros Hidx Hold. destruct (IH _ Hidx Hold) as [Hin|Hm].
    + left. now right.
    + destruct (decide (k = key)) as [->|Hne].
      * rewrite lookup_insert_eq in Hm. injection Hm as ->. left. now left.
      * rewrite lookup_insert_ne in Hm by exact Hne. now right.
Qed.

(** The same from the store: a refresh that delivers what is stored writes
    no change record. *)
Lemma unchanged_refresh_no_changes (scraper : RegulationScraper)
    (regulations : list dict) (db : database) (existing_regs : gmap string dict) :
  index_existing
    (List.map (dict_of_row regulations_columns) (Store.regulations db)) ∅
  = Ok existing_regs ->
  (forall reg, In reg regulations ->
     exists reg' key old,
       prepare scraper reg = Ok reg'
       /\ lookup_key reg' = Ok key
       /\ existing_regs !! key = Some old
       /\ same_fields old reg') ->
  exists s',
    replace_store scraper regulations (connect db) = (Ok [], s')
    /\ regulation_changes (current s') = regulation_changes db.
Proof.
  intros Hidx Hall.
  destruct (refresh_loop_same scraper existing_regs regulations
              (after_delete db) eq_refl) as (s' & Hloop & Hchanges).
  { intros reg Hin.
    destruct (Hall reg Hin) as (reg' & key & old & Hp & Hk & Ho & Hs).
    exists reg', key, old. repeat split; auto.
    destruct (index_existing_values _ _ _ _ _ Hidx Ho) as [Hrow|Hempty].
    - apply in_map_iff in Hrow as (row & <- & _). apply dict_of_row_truthy.
    - rewrite lookup_empty in Hempty. discriminate. }
  exists s'. split; [|exact Hchanges].
  unfold replace_store, mbind. cbn [execute_select connect closed].
  change (current (connect db)) with db.
  unfold lift. rewrite Hidx. exact Hloop.
Qed.

Lemma unchanged_records_emit_nothing_witness :
  exists s',
    refresh_loop offline sample_existing
      [ incoming "Part 1301" "Registration of manufacturers" ]
      (after_delete sample_db) = (Ok [], s')
    /\ regulation_changes (current s')
       = regulation_changes (current (after_delete sample_db)).
Proof.
  apply (unchanged_records_emit_nothing offline sample_existing).
  - reflexivity.
  - intros reg [<-|[]].
    exists (<["status_reason" :=
                text "Establishes regulatory requirements that must be followed"]>
              (<["status" := text "Requires Compliance"]>
                 (normalize (incoming "Part 1301" "Registration of manufacturers")))),
      "Part 1301|Registration of manufacturers",
      (dict_of_row regulations_columns
         (sample_row "Part 1301" "Registration of manufacturers"
            "Requires Compliance")).
    split; [reflexivity|].
    split; [reflexivity|].
    split; [vm_compute; reflexivity|].
    split; [reflexivity|].
    intros field Hin. simpl in Hin.
    destruct Hin as [<-|[<-|[<-|[<-|[]]]]]; reflexivity.
Defined.

(** An unchanged record is not mentioned, a record with a new url is one
    update, a record with a new key is one addition, and the stored row
    that does not come back is not mentioned either. *)
Example refresh_changes_ex :
  List.map (fun row => (row !! "change_type", row !! "field_name"))
    (regulation_changes
       (snd (run_update offline
               [ incoming "Part 1301" "Registration of manufacturers";
                 <["url" := PyStr "ftp://x"]> (incoming "Part 1" "General");
                 incoming "Part 9" "Devices shall not be sold" ]
               sample_db)))
  = [ (Some (PyStr "updated"), Some (PyStr "url"));
      (Some (PyStr "added"), Some (PyStr "regulation")) ].
Proof. vm_compute. reflexivity. Qed.

End RefreshFacts.

(** ** The vector index *)

Section RagFacts.
Import Store Rag.

Local Open Scope Q_scope.

Lemma embed_all_lengths (b : backend) (regulations : list dict)
    (embeddings embeddings' : list vector) (metadata metadata' : list dict) :
  embed_all b regulations embeddings metadata = Ok (embeddings', metadata') ->
  exists new_vectors new_metadata,
    embeddings' = (embeddings ++ new_vectors)%list
    /\ metadata' = (metadata ++ new_metadata)%list
    /\ length new_vectors = length regulations
    /\ length new_metadata = length regulations.
Proof.
  revert embeddings metadata.
  induction regulations as [|reg regulations IH]; intros embeddings metadata.
  - intros [= <- <-]. exists [], []. now rewrite !app_nil_r.
  - cbn [embed_all].
    destruct (create_searchable_text reg) as [searchable_text|]; [|discriminate].
    cbn [bind].
    destruct (generate_embedding b searchable_text) as [embedding|]; [|discriminate].
    cbn [bind].
    destruct (py_take 500 _) as [description|]; [|discriminate].
    cbn [bind]. intros H.
    apply IH in H as (vs & ms & -> & -> & Hv & Hm).
    eexists (embedding :: vs), (_ :: ms).
    rewrite <- !app_assoc. simpl. auto.
Qed.

(** What a call that gets through leaves behind: the count of the records,
    one metadata entry for each, and the vectors that were in the index
    before the call followed by one new vector for each record. *)
Lemma index_regulations_state (b : backend) (self self' : RAGService)
    (regulations : list dict) (count : Z) :
  regulations <> [] ->
  index_regulations b self regulations = Ok (count, self') ->
  count = Z.of_nat (length regulations)
  /\ length (regulations_metadata self') = length regulations
  /\ is_indexed self' = true
  /\ exists new_vectors,
       length new_vectors = length regulations
       /\ index self' = Some (default [] (index self) ++ new_vectors)%list.
Proof.
  intros Hne. unfold index_regulations.
  destruct regulations as [|reg regulations]; [congruence|].
  destruct (embed_all b (reg :: regulations) [] []) as [[vs ms]|] eqn:Hall;
    [|discriminate].
  cbn [bind]. intros [= <- <-].
  apply embed_all_lengths in Hall as (vs' & ms' & -> & -> & Hv & Hm).
  cbn [regulations_metadata is_indexed Rag.index fst snd].
  repeat split; auto.
  exists vs'. split; [exact Hv|]. now destruct (Rag.index self).
Qed.

(** On an index that was cleared first, the call does replace: the index
    holds the new vectors and nothing else. *)
Lemma index_after_clear (b : backend) (self self' : RAGService)
    (regulations : list dict) (count : Z) :
  regulations <> [] ->
  index_regulations b (clear_index self) regulations = Ok (count, self') ->
  count = Z.of_nat (length regulations)
  /\ length (regulations_metadata self') = length regulations
  /\ exists vectors,
       index self' = Some vectors /\ length vectors = length regulations.
Proof.
  intros Hne H.
  apply index_regulations_state in H as (Hc & Hm & _ & vs & Hv & Hi); [|exact Hne].
  repeat split; auto. exists vs. split; [exact Hi | exact Hv].
Qed.

(** C1, at an input on which the code departs from it.  Two calls in a
    row, without [clear_index] in between: the second returns 1 and leaves one metadata entry, but the
    index holds three vectors, the two of the first call still in front. *)
Lemma reindex_keeps_old_vectors :
  exists self',
    index_regulations length_embedder sample_index second_batch = Ok (1%Z, self')
    /\ index sample_index = Some [ [18]; [16] ]
    /\ index self' = Some [ [18]; [16]; [15] ]
    /\ List.map (fun m => m !! "part") (regulations_metadata self')
       = [ Some (PyStr "Part 3") ].
Proof.
  eexists. split; [vm_compute; reflexivity|].
  split; [vm_compute; reflexivity|].
  split; vm_compute; reflexivity.
Qed.

(** After such a call the nearest vector can be an old one, and its
    position is read in the new metadata: the query that is the searchable
    text of the first record of [first_batch] comes back as "Part 3" with
    the score of an exact match. *)
Example stale_vector_ex :
  exists self',
    index_regulations length_embedder sample_index second_batch = Ok (1%Z, self')
    /\ List.map (fun r => (r !! "part", r !! "relevance_score"))
         (semantic_search length_embedder self' "Part Part 1 | aaaa" 1 None)
       = [ (Some (Field (PyStr "Part 3")), Some (Float (1 # 1))) ].
Proof.
  eexists. split; vm_compute; reflexivity.
Qed.

(** *** Ranking *)

Lemma py_div_ok (a b q : Q) : py_div a b = Ok q -> q = a / b.
Proof. unfold py_div. destruct (Qeq_bool b 0); [discriminate|]. now intros [= <-]. Qed.

Lemma collect_picked (self : RAGService) (n_results : Z)
    (filter_dict : option dict) (hits : list (Q * Z)) (acc out : list result) :
  collect self n_results filter_dict hits acc = Ok out ->
  exists added, out = (acc ++ added)%list /\ picked hits added.
Proof.
  revert acc. induction hits as [|[distance idx] hits IH]; intros acc.
  - intros [= <-]. exists []. split; [now rewrite app_nil_r | constructor].
  - cbn [collect].
    destruct (idx <? _)%Z.
    + destruct (py_index _ idx) as [metadata|]; [|discriminate]. cbn [bind].
      destruct (filtered_out filter_dict metadata).
      * intros H. apply IH in H as (added & -> & Hp).
        exists added. split; [reflexivity | now constructor].
      * destruct (py_div 1 (1 + distance)) as [q|] eqn:Hq; [|discriminate].
        cbn [bind]. apply py_div_ok in Hq. subst q.
        destruct (n_results <=? _)%Z.
        -- intros [= <-]. eexists [_]. split; [reflexivity|].
           apply picked_take. constructor.
        -- intros H. apply IH in H as (added & -> & Hp).
           eexists (_ :: added). rewrite <- app_assoc. split; [reflexivity|].
           now apply picked_take.
    + intros H. apply IH in H as (added & -> & Hp).
      exists added. split; [reflexivity | now constructor].
Qed.

(** The loop stops as soon as the list has [n_results] entries. *)
Lemma collect_length (self : RAGService) (n_results : Z)
    (filter_dict : option dict) (hits : list (Q * Z)) (acc out : list result) :
  collect self n_results filter_dict hits acc = Ok out ->
  (Z.of_nat (length acc) < n_results)%Z ->
  (Z.of_nat (length out) <= n_results)%Z.
Proof.
  revert acc. induction hits as [|[distance idx] hits IH]; intros acc.
  - intros [= <-]. lia.
  - cbn [collect].
    destruct (idx <? _)%Z; [|apply IH].
    destruct (py_index _ idx) as [metadata|]; [|discriminate]. cbn [bind].
    destruct (filtered_out filter_dict metadata); [apply IH|].
    destruct (py_div 1 (1 + distance)) as [q|]; [|discriminate]. cbn [bind].
    destruct (n_results <=? _)%Z eqn:Hstop.
    + intros [= <-] Hlt. rewrite length_app. simpl. lia.
    + intros H Hlt. apply (IH _ H). apply Z.leb_gt in Hstop. exact Hstop.
Qed.

Lemma similarity_nonneg (d : Q) : 0 <= d -> 0 <= 1 / (1 + d).
Proof.
  intros Hd. unfold Qdiv. rewrite Qmult_1_l. apply Qinv_le_0_compat.
  apply (Qle_trans _ (1 + 0)); [discriminate|].
  apply Qplus_le_r. exact Hd.
Qed.

Lemma one_plus_pos (d : Q) : 0 <= d -> 0 < 1 + d.
Proof.
  intros Hd. apply (Qlt_le_trans _ (1 + 0)); [reflexivity|].
  apply Qplus_le_r. exact Hd.
Qed.

(** A smaller distance is a higher score. *)
Lemma similarity_antitone (d1 d2 : Q) :
  0 <= d1 -> d1 <= d2 -> 1 / (1 + d2) <= 1 / (1 + d1).
Proof.
  intros H1 H12.
  assert (H2 : 0 <= d2) by (eapply Qle_trans; eauto).
  apply Qle_shift_div_r; [now apply one_plus_pos|].
  unfold Qdiv. rewrite Qmult_1_l.
  rewrite (Qmult_comm (/ (1 + d1))).
  change (1 <= (1 + d2) / (1 + d1)).
  apply Qle_shift_div_l; [now apply one_plus_pos|].
  rewrite Qmult_1_l. apply Qplus_le_r. exact H12.
Qed.

Lemma search_result_score (metadata : dict) (q : Q) :
  search_result metadata q !! "relevance_score" = Some (Float q)
  /\ search_result metadata q !! "combined_score" = None
  /\ get_float (search_result metadata q) "relevance_score" = q.
Proof. repeat split; reflexivity. Qed.

Lemma picked_bound (hits : list (Q * Z)) (out : list result) (d : Q) :
  picked hits out ->
  0 <= d ->
  Forall (fun hit => d <= fst hit) hits ->
  Forall (fun r => get_float r "relevance_score" <= 1 / (1 + d)) out.
Proof.
  intros Hp Hd. induction Hp as [hits|hit hits out Hp IH|d' idx md hits out Hp IH];
    intros Hall.
  - constructor.
  - apply IH. now inversion Hall.
  - inversion Hall as [|? ? Hhd Htl]; subst. constructor; [|now apply IH].
    destruct (search_result_score md (1 / (1 + d'))) as (_ & _ & ->).
    now apply similarity_antitone.
Qed.

Lemma picked_ranked (hits : list (Q * Z)) (out : list result) :
  picked hits out -> nearest_first hits ->
  by_score_desc out /\ Forall scored out.
Proof.
  intros Hp. induction Hp as [hits|hit hits out Hp IH|d idx md hits out Hp IH];
    intros [Hsorted Hpos].
  - split; constructor.
  - apply IH. split; [now inversion Hsorted | now inversion Hpos].
  - inversion Hsorted as [|? ? Hs Hle]; subst.
    inversion Hpos as [|? ? Hd Hpos']; subst. cbn [fst] in *.
    destruct (IH (conj Hs Hpos')) as [IHs IHf].
    split.
    + constructor; [exact IHs|].
      destruct (search_result_score md (1 / (1 + d))) as (_ & _ & Hget).
      rewrite Hget. exact (picked_bound _ _ d Hp Hd Hle).
    + constructor; [|exact IHf].
      exists d. destruct (search_result_score md (1 / (1 + d))) as (H1 & H2 & _).
      repeat split; auto. now apply similarity_nonneg.
Qed.

(** Every entry of a semantic result, ranked or not, has the unweighted
    score of a hit and no combined score. *)
Lemma picked_unweighted (hits : list (Q * Z)) (out : list result) :
  picked hits out ->
  Forall (fun r => r !! "combined_score" = None
                   /\ exists d, r !! "relevance_score" = Some (Float (1 / (1 + d))))
         out.
Proof.
  induction 1 as [hits|hit hits out Hp IH|d idx md hits out Hp IH];
    [constructor | exact IH | constructor; [|exact IH]].
  destruct (search_result_score md (1 / (1 + d))) as (H1 & H2 & _). eauto.
Qed.

Lemma semantic_search_picked (b : backend) (self : RAGService) (query : string)
    (n_results : Z) (filter_dict : option dict) :
  semantic_search b self query n_results filter_dict = []
  \/ exists vectors qe hits,
       index self = Some vectors
       /\ is_indexed self = true
       /\ generate_embedding b query = Ok qe
       /\ faiss_search b vectors qe
            (Z.min (n_results * 2) (Z.of_nat (length (regulations_metadata self))))
          = Ok hits
       /\ collect self n_results filter_dict hits []
          = Ok (semantic_search b self query n_results filter_dict).
Proof.
  unfold semantic_search.
  destruct (index self) as [vectors|]; [|now left].
  destruct (is_indexed self); [|now left].
  destruct (generate_embedding b query) as [qe|]; [|now left]. cbn [bind].
  destruct (faiss_search b vectors qe _) as [hits|] eqn:Hs; [|now left].
  cbn [bind].
  destruct (collect self n_results filter_dict hits []) as [out|] eqn:Hc;
    [|now left].
  right. exists vectors, qe, hits. auto.
Qed.

(** C6.  [semantic_search] returns at most [n_results] entries, highest
    score first; every entry is made from one of the hits FAISS answered
    with, in their order, and its score is [1 / (1 + distance)] for the
    distance of that hit, so no score is negative; and without a built
    index the result is empty.  FAISS is taken to answer a search for [k]
    neighbours with [k] hits, nearest first, none at a negative distance. *)
Theorem semantic_search_ranked (b : backend) (self : RAGService)
    (query : string) (n_results : Z) (filter_dict : option dict) :
  (forall vectors qe hits,
     index self = Some vectors ->
     generate_embedding b query = Ok qe ->
     faiss_search b vectors qe
       (Z.min (n_results * 2) (Z.of_nat (length (regulations_metadata self))))
     = Ok hits ->
     length hits
     = Z.to_nat (Z.min (n_results * 2)
                   (Z.of_nat (length (regulations_metadata self))))
     /\ nearest_first hits) ->
  (Z.of_nat (length (semantic_search b self query n_results filter_dict))
   <= Z.max 0 n_results)%Z
  /\ by_score_desc (semantic_search b self query n_results filter_dict)
  /\ (exists hits,
        (hits = []
         \/ exists vectors qe,
              index self = Some vectors
              /\ generate_embedding b query = Ok qe
              /\ faiss_search b vectors qe
                   (Z.min (n_results * 2)
                      (Z.of_nat (length (regulations_metadata self))))
                 = Ok hits)
        /\ Forall (fun hit => 0 <= fst hit) hits
        /\ picked hits (semantic_search b self query n_results filter_dict))
  /\ Forall (fun r => 0 <= get_float r "relevance_score")
        (semantic_search b self query n_results filter_dict)
  /\ (is_indexed self = false \/ index self = None ->
      semantic_search b self query n_results filter_dict = []).
Proof.
  intros Hfaiss.
  assert (Hempty : is_indexed self = false \/ index self = None ->
                   semantic_search b self query n_results filter_dict = []).
  { unfold semantic_search. intros [H|H]; rewrite H; [|reflexivity].
    now destruct (index self). }
  destruct (semantic_search_picked b self query n_results filter_dict)
    as [Hnil|(vectors & qe & hits & Hi & Hb & He & Hs & Hc)].
  - rewrite Hnil.
    split; [simpl; lia|]. split; [constructor|].
    split; [|split; [constructor | now rewrite <- Hnil]].
    exists []. split; [now left|]. split; constructor.
  - destruct (Hfaiss vectors qe hits Hi He Hs) as [Hlen Hnear].
    destruct (collect_picked _ _ _ _ _ _ Hc) as (added & Hout & Hp).
    cbn [app] in Hout. subst added.
    destruct (picked_ranked _ _ Hp Hnear) as [Hsorted Hscored].
    split; [|split; [exact Hsorted|split; [|split; [|exact Hempty]]]].
    + destruct (Z.le_gt_cases n_results 0) as [Hn|Hn].
      * assert (hits = []) as ->.
        { apply length_zero_iff_nil. rewrite Hlen. lia. }
        cbn [collect] in Hc. injection Hc as <-. simpl. lia.
      * pose proof (collect_length _ _ _ _ _ _ Hc) as Hl.
        cbn [length] in Hl. lia.
    + exists hits. split; [right; exists vectors, qe; auto|].
      split; [exact (proj2 Hnear) | exact Hp].
    + eapply List.Forall_impl; [|exact Hscored].
      intros r (d & Hd & Hscore & _ & Hpos).
      unfold get_float. rewrite Hscore. exact Hpos.
Qed.

Lemma semantic_search_ranked_witness :
  (Z.of_nat (length (semantic_search length_embedder sample_index "Part 2 | bb" 5 None))
   <= Z.max 0 5)%Z
  /\ by_score_desc (semantic_search length_embedder sample_index "Part 2 | bb" 5 None)
  /\ (exists hits,
        (hits = []
         \/ exists vectors qe,
              index sample_index = Some vectors
              /\ generate_embedding length_embedder "Part 2 | bb" = Ok qe
              /\ faiss_search length_embedder vectors qe
                   (Z.min (5 * 2)
                      (Z.of_nat (length (regulations_metadata sample_index))))
                 = Ok hits)
        /\ Forall (fun hit => 0 <= fst hit) hits
        /\ picked hits
             (semantic_search length_embedder sample_index "Part 2 | bb" 5 None))
  /\ Forall (fun r => 0 <= get_float r "relevance_score")
        (semantic_search length_embedder sample_index "Part 2 | bb" 5 None)
  /\ (is_indexed sample_index = false \/ index sample_index = None ->
      semantic_search length_embedder sample_index "Part 2 | bb" 5 None = []).
Proof.
  apply (semantic_search_ranked length_embedder sample_index "Part 2 | bb" 5 None).
  intros vectors qe hits Hi He Hs.
  vm_compute in Hi. injection Hi as <-.
  vm_compute in He. injection He as <-.
  vm_compute in Hs. injection Hs as <-.
  split; [reflexivity|].
  split.
  - repeat constructor; cbn [fst]; unfold Qle; simpl; lia.
  - repeat constructor; cbn [fst]; unfold Qle; simpl; lia.
Defined.

Example semantic_search_ex :
  List.map (fun r => (r !! "part", r !! "relevance_score"))
    (semantic_search length_embedder sample_index "Part 2 | bb" 5 None)
  = [ (Some (Field (PyStr "Part 2")), Some (Float (1 # 26)));
      (Some (Field (PyStr "Part 1")), Some (Float (1 # 50))) ]
  /\ semantic_search length_embedder init "Part 2 | bb" 5 None = []
  /\ semantic_search length_embedder sample_index "Part 2 | bb" 0 None = [].
Proof. vm_compute. auto. Qed.

(** *** The hybrid merge *)

Lemma Forall_firstn {A} (P : A -> Prop) (n : nat) (l : list A) :
  Forall P l -> Forall P (firstn n l).
Proof.
  intros H. revert n. induction H as [|x l Hx H IH]; intros [|n]; simpl;
    constructor; auto.
Qed.

Lemma Forall_slice_to {A} (P : A -> Prop) (n : Z) (l : list A) :
  Forall P l -> Forall P (slice_to n l).
Proof. intros H. unfold slice_to. destruct (0 <=? n)%Z; now apply Forall_firstn. Qed.

Lemma semantic_search_unweighted (b : backend) (self : RAGService)
    (query : string) (n_results : Z) (filter_dict : option dict) :
  Forall (fun r => r !! "combined_score" = None
                   /\ exists d, r !! "relevance_score" = Some (Float (1 / (1 + d))))
         (semantic_search b self query n_results filter_dict).
Proof.
  destruct (semantic_search_picked b self query n_results filter_dict)
    as [->|(vectors & qe & hits & _ & _ & _ & _ & Hc)]; [constructor|].
  destruct (collect_picked _ _ _ _ _ _ Hc) as (added & Hout & Hp).
  cbn [app] in Hout. subst added. exact (picked_unweighted _ _ Hp).
Qed.

(** C2 (amended).  With no keyword results the merge is the
    semantic list for twice as many results, cut to [n_results]; an entry
    has no combined score, and its relevance score is the similarity
    [1 / (1 + distance)] as it is, with no weight applied. *)
Theorem hybrid_without_keywords (b : backend) (self : RAGService)
    (query : string) (n_results : Z) (keyword_results : option (list dict))
    (semantic_weight : Q) :
  keyword_results = None \/ keyword_results = Some [] ->
  hybrid_search b self query n_results keyword_results semantic_weight
  = slice_to n_results (semantic_search b self query (n_results * 2) None)
  /\ Forall (fun r => r !! "combined_score" = None
                      /\ exists d, r !! "relevance_score"
                                   = Some (Float (1 / (1 + d))))
       (hybrid_search b self query n_results keyword_results semantic_weight).
Proof.
  intros Hkw.
  assert (Heq : hybrid_search b self query n_results keyword_results semantic_weight
                = slice_to n_results
                    (semantic_search b self query (n_results * 2) None)).
  { unfold hybrid_search. now destruct Hkw as [->| ->]. }
  split; [exact Heq|].
  rewrite Heq. apply Forall_slice_to, semantic_search_unweighted.
Qed.

Lemma hybrid_without_keywords_witness :
  hybrid_search length_embedder sample_index "Part 2 | bb" 1 (Some []) (7 # 10)
  = slice_to 1 (semantic_search length_embedder sample_index "Part 2 | bb" (1 * 2) None)
  /\ Forall (fun r => r !! "combined_score" = None
                      /\ exists d, r !! "relevance_score"
                                   = Some (Float (1 / (1 + d))))
       (hybrid_search length_embedder sample_index "Part 2 | bb" 1 (Some []) (7 # 10)).
Proof.
  apply (hybrid_without_keywords length_embedder sample_index "Part 2 | bb" 1
           (Some []) (7 # 10)).
  right. reflexivity.
Defined.

(** It fails: with weight 7/10 the one entry that comes back reports its
    similarity 1/26, not 7/260. *)
Lemma hybrid_without_keywords_unweighted :
  List.map (fun r => (r !! "part", r !! "relevance_score", r !! "combined_score"))
    (hybrid_search length_embedder sample_index "Part 2 | bb" 1 (Some []) (7 # 10))
  = [ (Some (Field (PyStr "Part 2")), Some (Float (1 # 26)), None) ]
  /\ ~ weighted (7 # 10)
         (hybrid_search length_embedder sample_index "Part 2 | bb" 1 (Some [])
            (7 # 10)).
Proof.
  split; [vm_compute; reflexivity|].
  intros H. unfold weighted in H.
  assert (Hhd : option_map
                  (fun r => (reported_score r, get_float r "relevance_score"))
                  (hd_error
                     (hybrid_search length_embedder sample_index "Part 2 | bb" 1
                        (Some []) (7 # 10)))
                = Some (Some (Float (1 # 26)), 1 # 26))
    by (vm_compute; reflexivity).
  destruct (hybrid_search length_embedder sample_index "Part 2 | bb" 1 (Some [])
              (7 # 10)) as [|r out]; [discriminate Hhd|].
  cbn [hd_error option_map] in Hhd. injection Hhd as Hr Hg.
  inversion H as [|? ? (score & Hrep & Hscore) _]; subst.
  rewrite Hr in Hrep. injection Hrep as <-.
  rewrite Hg in Hscore. vm_compute in Hscore. discriminate Hscore.
Qed.

(** With keyword results the scores are weighted and added. *)
Example hybrid_merge_ex :
  List.map (fun r => (r !! "part", r !! "combined_score", r !! "source"))
    (hybrid_search length_embedder sample_index "Part 2 | bb" 5
       (Some [ <["id" := PyInt 0]> (incoming "Part 1" "aaaa") ]) (7 # 10))
  = [ (Some (Field (PyStr "Part 1")), Some (Float (1570 # 5000)),
       Some (Field (PyStr "both")));
      (Some (Field (PyStr "Part 2")), Some (Float (7 # 260)),
       Some (Field (PyStr "semantic"))) ].
Proof. vm_compute. reflexivity. Qed.

End RagFacts.

(** ** More on text *)

Section TextMore.





Lemma length_take (n : nat) (s : string) : String.length (take n s) <= n.
Proof.
  revert s. induction n as [|n IH]; intros s.
  - destruct s; apply Nat.le_refl.
  - destruct s as [|c s]; [apply Nat.le_0_l|].
    change (S (String.length (take n s)) <= S n).
    apply le_n_S, IH.
Qed.


End TextMore.

(** ** More on the status classifier *)

Section ClassifierMore.
Import Classifier.

Lemma llm_override_decided (self : RegulationScraper)
    (description url content : pyval) (result : string * string) :
  llm_override self description url content = Some result ->
  In (fst result) decided.
Proof.
  intros H. pose proof (llm_override_valid _ _ _ _ _ H) as Hv.
  unfold llm_override in H.
  destruct (llm_analyzer self) as [llm|]; [|discriminate].
  destruct (Llm.enabled llm); [|discriminate].
  destruct (String.eqb _ "Unknown") eqn:Hu; [discriminate|].
  injection H as <-. apply String.eqb_neq in Hu.
  unfold statuses in Hv. unfold decided. simpl in *.
  intuition congruence.
Qed.

(** X1.  Whatever the external classifier replies, a classification never
    ends in "Unknown": an external "Unknown" falls through to the keyword
    rules, and these always decide. *)
Theorem classifier_never_unknown (self : RegulationScraper) (d : string)
    (url content : pyval) :
  text_or_none url ->
  exists status reason,
    analyze_regulation_status self (PyStr d) url content = Ok (status, reason)
    /\ In status decided.
Proof.
  intros Hurl. rewrite (analyze_text_eq self d url content Hurl).
  destruct (llm_override self (PyStr d) url _) as [[status reason]|] eqn:Hllm.
  - exists status, reason. split; [reflexivity|].
    apply (llm_override_decided _ _ _ _ _ Hllm).
  - pose proof (keyword_rules_valid (lower d)
                  (lower (strip (d +:+ " " +:+ str (content_used self url content)))))
      as Hv.
    destruct (keyword_rules _ _) as [status reason].
    exists status, reason. split; [reflexivity | exact Hv].
Qed.

Lemma classifier_never_unknown_witness :
  exists status reason,
    analyze_regulation_status offline (PyStr "General") PyNone PyNone
    = Ok (status, reason)
    /\ In status decided.
Proof. apply (classifier_never_unknown offline "General" PyNone PyNone). exact I. Defined.





(** X4.  A supplied content, or a url that does not start with "http",
    keeps the classifier off the network: the answer does not depend on
    what a request would return. *)
Theorem no_fetch_when_content_supplied (self self' : RegulationScraper)
    (description url content : pyval) :
  llm_analyzer self = llm_analyzer self' ->
  truthy content = true
  \/ url = PyNone
  \/ (exists u, url = PyStr u /\ startswith "http" u = false) ->
  analyze_regulation_status self description url content
  = analyze_regulation_status self' description url content.
Proof.
  intros Hllm Hcases.
  assert (Hover : forall c, llm_override self description url c
                            = llm_override self' description url c).
  { intros c. unfold llm_override. now rewrite Hllm. }
  unfold analyze_regulation_status.
  destruct Hcases as [Hc|[->|(u & -> & Hu)]].
  - rewrite Hc. cbn [negb andb bind]. now rewrite Hover.
  - cbn [truthy]. rewrite andb_false_r. cbn [bind]. now rewrite Hover.
  - destruct (negb (truthy content) && truthy (PyStr u)).
    + cbn [py_startswith bind]. rewrite Hu. cbn [bind]. now rewrite Hover.
    + cbn [bind]. now rewrite Hover.
Qed.

Lemma no_fetch_when_content_supplied_witness :
  analyze_regulation_status offline (PyStr "General") (PyStr "http://x")
    (PyStr "some text")
  = analyze_regulation_status
      {| llm_analyzer := None;
         session_get := fun _ => HttpPage (Some "shall not") "" |}
      (PyStr "General") (PyStr "http://x") (PyStr "some text").
Proof.
  apply (no_fetch_when_content_supplied offline).
  - reflexivity.
  - left. reflexivity.
Defined.





(** X7.  What a fetch hands to the rules is bounded: the content after the
    fetch is the content as it was, or a text of at most 8000 characters. *)
Theorem fetched_content_bounded (self : RegulationScraper) (u : string)
    (content : pyval) :
  fetch_content self u content = content
  \/ exists t, fetch_content self u content = PyStr t
               /\ (String.length t <= 8000)%nat.
Proof.
  unfold fetch_content.
  destruct (session_get self u) as [| |[text_content|] para_text]; auto.
  - right. exists EmptyString. split; [reflexivity | apply Nat.le_0_l].
  - right. destruct (_ <? 500)%nat; [destruct (_ <? _)%nat|];
      eexists; (split; [reflexivity | apply length_take]).
Qed.

End ClassifierMore.

(** ** The external classifier *)

Section LlmFacts.
Import Llm.

(** X8.  The analyzer answers with one of the five statuses whatever the
    model replies; when it is disabled, and when the request raises, the
    status is "Unknown" and the reason says why. *)
Theorem llm_analyzer_total (self : LLMRegulationAnalyzer)
    (description url : pyval) (content : string) :
  In (fst (analyze_regulation_status self description url (PyStr content))) Classifier.statuses
  /\ (enabled self = false ->
      analyze_regulation_status self description url (PyStr content)
      = ("Unknown", "LLM not configured"))
  /\ (forall e,
        enabled self = true ->
        chat_completion self (str description) (str url)
          (if String.eqb content "" then "No content available"
           else take 3000 content) = Raise e ->
        analyze_regulation_status self description url (PyStr content)
        = ("Unknown", "LLM analysis failed: " +:+ exn_msg e)).
Proof.
  split; [apply llm_status_valid|]. split.
  - intros Hoff. unfold analyze_regulation_status. now rewrite Hoff.
  - intros e Hon Hraise. unfold analyze_regulation_status. rewrite Hon.
    cbn [negb truthy]. destruct (String.eqb content ""); cbn [negb py_take bind];
      now rewrite Hraise.
Qed.

(** X9.  Normalizing a status does not look at letter case, and each of the
    five status names, however it is cased, is normalized to itself. *)
Theorem normalize_status_canonical (status canonical : string) :
  In canonical Classifier.statuses ->
  lower status = lower canonical ->
  normalize_status status = canonical.
Proof.
  intros Hin Hcase. unfold normalize_status. rewrite Hcase.
  unfold Classifier.statuses in Hin.
  repeat (destruct Hin as [<-|Hin]; [reflexivity|]). destruct Hin.
Qed.

Lemma normalize_status_canonical_witness :
  normalize_status "REQUIRES compliance" = "Requires Compliance".
Proof.
  apply normalize_status_canonical; [simpl; tauto | reflexivity].
Defined.

End LlmFacts.

(** ** Parsing the reply of the model *)

Section ParseFacts.
Import Llm.

Lemma append_empty_r (s : string) : s +:+ EmptyString = s.
Proof.
  induction s as [|c s IH]; [reflexivity|].
  change (String c (s +:+ EmptyString) = String c s). now rewrite IH.
Qed.

Lemma contains_self_prefix (kw rest : string) : contains kw (kw +:+ rest) = true.
Proof.
  destruct (kw +:+ rest) as [|c s] eqn:Hs.
  - destruct kw; [reflexivity | discriminate Hs].
  - change (startswith kw (String c s) || contains kw s = true).
    rewrite <- Hs, startswith_refl. reflexivity.
Qed.

Lemma contains_app_r (kw a b : string) :
  contains kw b = true -> contains kw (a +:+ b) = true.
Proof.
  intros Hb. induction a as [|c a IH]; [exact Hb|].
  change (startswith kw (String c (a +:+ b)) || contains kw (a +:+ b) = true).
  rewrite IH. apply orb_true_r.
Qed.

(** Passing over the rest of a separator that was just matched. *)
Lemma split_go_skip (sep x rest cur : string) :
  split_go sep (x +:+ rest) (String.length x) cur = split_go sep rest 0 cur.
Proof.
  induction x as [|c x IH]; [reflexivity|].
  change (split_go sep (x +:+ rest) (String.length x) cur = split_go sep rest 0 cur).
  exact IH.
Qed.

(** A text without the separator is one piece. *)
Lemma split_go_none (sep s cur : string) :
  contains sep s = false -> split_go sep s 0 cur = [cur +:+ s].
Proof.
  revert cur. induction s as [|c s IH]; intros cur Hno.
  - now rewrite append_empty_r.
  - change (startswith sep (String c s) || contains sep s = false) in Hno.
    apply orb_false_iff in Hno as [Hhead Htail].
    cbn [split_go]. rewrite Hhead, (IH _ Htail).
    now rewrite append_assoc.
Qed.

(** A text that starts with the separator. *)
Lemma split_go_hit (sep rest cur : string) :
  sep <> EmptyString ->
  split_go sep (sep +:+ rest) 0 cur = cur :: split_go sep rest 0 EmptyString.
Proof.
  destruct sep as [|k sep]; [congruence|]. intros _.
  change (String k sep +:+ rest) with (String k (sep +:+ rest)).
  cbn [split_go].
  change (String k (sep +:+ rest)) with (String k sep +:+ rest) at 1.
  rewrite startswith_refl.
  change (String.length (String k sep) - 1) with (String.length sep - 0).
  rewrite Nat.sub_0_r. now rewrite split_go_skip.
Qed.

(** The first occurrence of a separator of one character. *)
Lemma split_go_char (c : ascii) (a b cur : string) :
  contains (String c EmptyString) a = false ->
  split_go (String c EmptyString) (a +:+ String c b) 0 cur
  = (cur +:+ a) :: split_go (String c EmptyString) b 0 EmptyString.
Proof.
  revert cur. induction a as [|x a IH]; intros cur Hno.
  - rewrite append_empty_r.
    apply (split_go_hit (String c EmptyString) b cur). discriminate.
  - change (startswith (String c EmptyString) (String x a)
            || contains (String c EmptyString) a = false) in Hno.
    apply orb_false_iff in Hno as [Hhead Htail].
    change (String x a +:+ String c b) with (String x (a +:+ String c b)).
    cbn [split_go].
    assert (Hstart : startswith (String c EmptyString) (String x (a +:+ String c b))
                     = false).
    { change (Ascii.eqb c x && startswith EmptyString (a +:+ String c b) = false).
      change (Ascii.eqb c x && startswith EmptyString a = false) in Hhead.
      rewrite startswith_empty_l in *. exact Hhead. }
    rewrite Hstart, (IH _ Htail). now rewrite append_assoc.
Qed.

(** X10.  A reply in the format the prompt asks for is understood: one line
    that starts with STATUS: followed by one line that starts with REASON:
    parses to the normalized status and the trimmed reason. *)
Theorem parse_response_format (st rt : string) :
  contains newline ("STATUS:" +:+ st) = false ->
  contains newline ("REASON:" +:+ rt) = false ->
  contains "STATUS:" st = false ->
  contains "STATUS:" ("REASON:" +:+ rt) = false ->
  contains "REASON:" ("STATUS:" +:+ st) = false ->
  contains "REASON:" rt = false ->
  parse_response (("STATUS:" +:+ st) +:+ newline +:+ ("REASON:" +:+ rt))
  = Ok (normalize_status (strip st), strip rt).
Proof.
  intros Hnl1 Hnl2 Hs1 Hs2 Hr1 Hr2.
  assert (Hlines : split newline (("STATUS:" +:+ st) +:+ newline +:+ ("REASON:" +:+ rt))
                   = [ "STATUS:" +:+ st; "REASON:" +:+ rt ]).
  { unfold split, newline.
    change (String "010" EmptyString +:+ ("REASON:" +:+ rt))
      with (String "010"%char ("REASON:" +:+ rt)).
    rewrite split_go_char by exact Hnl1.
    now rewrite split_go_none by exact Hnl2. }
  assert (Hstatus : contains "STATUS:"
                      (("STATUS:" +:+ st) +:+ newline +:+ ("REASON:" +:+ rt)) = true).
  { rewrite append_assoc. apply contains_self_prefix. }
  assert (Hreason : contains "REASON:"
                      (("STATUS:" +:+ st) +:+ newline +:+ ("REASON:" +:+ rt)) = true).
  { apply contains_app_r, contains_app_r, contains_self_prefix. }
  unfold parse_response. rewrite Hstatus, Hreason, Hlines.
  cbn [List.filter]. rewrite !contains_self_prefix, Hs2, Hr1.
  cbn [item lookup list_lookup bind].
  unfold split. rewrite !split_go_hit by discriminate.
  rewrite (split_go_none "STATUS:" st) by exact Hs1.
  rewrite (split_go_none "REASON:" rt) by exact Hr2.
  reflexivity.
Qed.

Lemma parse_response_format_witness :
  parse_response
    (("STATUS:" +:+ " Prohibited") +:+ newline +:+ ("REASON:" +:+ " It says shall not. "))
  = Ok (normalize_status (strip " Prohibited"), strip " It says shall not. ").
Proof.
  apply parse_response_format; reflexivity.
Defined.

Example parse_response_ex :
  parse_response
    (("STATUS:" +:+ " Prohibited") +:+ newline +:+ ("REASON:" +:+ " It says shall not. "))
  = Ok ("Prohibited", "It says shall not.")
  /\ parse_response "no markers at all" = Ok ("Unknown", "Analysis completed").
Proof. split; reflexivity. Qed.

End ParseFacts.

(** ** What a completed refresh leaves in the store *)

Section RefreshMore.
Import Store Classifier Refresh.

(** Whatever the input, a classification that returns has decided. *)
Lemma analyze_ok_decided (self : RegulationScraper)
    (description url content : pyval) (status reason : string) :
  analyze_regulation_status self description url content = Ok (status, reason) ->
  In status decided.
Proof.
  unfold analyze_regulation_status.
  match goal with
  | |- context [bind ?m _] => destruct m as [content'|]
  end; cbn [bind]; [|discriminate].
  destruct (llm_override self description url content') as [result|] eqn:Hllm.
  - intros [= ->]. apply (llm_override_decided _ _ _ _ _ Hllm).
  - destruct description as [|d|n]; cbn [py_lower bind]; try discriminate.
    intros [= H].
    match type of H with
    | keyword_rules ?a ?b = _ => pose proof (keyword_rules_valid a b) as Hv
    end.
    rewrite H in Hv. exact Hv.
Qed.

Lemma prepare_status (scraper : RegulationScraper) (reg reg' : dict) :
  prepare scraper reg = Ok reg' ->
  exists status, reg' !! "status" = Some (PyStr status) /\ In status decided.
Proof.
  unfold prepare.
  destruct (analyze_regulation_status _ _ _ _) as [[status reason]|] eqn:Ha;
    cbn [bind]; [|discriminate].
  intros [= <-]. exists status. split.
  - cbn [fst snd]. unfold text. by simplify_map_eq.
  - apply (analyze_ok_decided _ _ _ _ _ _ Ha).
Qed.

Lemma refreshed_refl (s : session) : closed s = false -> refreshed s s [] [].
Proof.
  intros Hc. unfold refreshed. rewrite !app_nil_r. cbn [length Z.of_nat].
  rewrite Z.add_0_r. auto.
Qed.

Lemma refreshed_trans (s1 s2 s3 : session) (rows1 rows2 added1 added2 : list dict) :
  refreshed s1 s2 rows1 added1 -> refreshed s2 s3 rows2 added2 ->
  refreshed s1 s3 (rows1 ++ rows2) (added1 ++ added2).
Proof.
  intros (_ & Hr1 & Hs1 & Hc1) (Hc & Hr2 & Hs2 & Hc2). unfold refreshed.
  rewrite Hr2, Hr1, Hs2, Hs1, Hc2, Hc1, !app_assoc, length_app, Nat2Z.inj_add.
  repeat split; auto. lia.
Qed.

Lemma insert_change_refreshed (id : Z) (change_type field_name old new : string)
    (s : session) :
  closed s = false ->
  exists s',
    execute_write (insert_change id change_type field_name old new) s = (Ok tt, s')
    /\ refreshed s s' []
         [change_row (current s) id change_type field_name old new].
Proof.
  intros Hopen. rewrite (execute_write_open _ s Hopen).
  eexists. split; [reflexivity|].
  unfold refreshed. cbn [length Z.of_nat]. rewrite app_nil_r, Z.add_0_r.
  repeat split; reflexivity.
Qed.

(** The loop over the fields writes "updated" rows only. *)
Lemma record_updates_refreshed (old reg : dict) (id : Z) (fields : list string)
    (s : session) :
  closed s = false ->
  (forall field, In field fields -> In field fields_to_check) ->
  exists detected s' added,
    record_updates old reg id fields s = (Ok detected, s')
    /\ refreshed s s' [] added
    /\ Forall (change_row_ok id) added
    /\ (length added <= length fields)%nat.
Proof.
  revert s. induction fields as [|field fields IH]; intros s Hopen Hsub.
  - exists [], s, []. split; [reflexivity|]. split; [now apply refreshed_refl|].
    split; [constructor | reflexivity].
  - assert (Hsub' : forall f, In f fields -> In f fields_to_check).
    { intros f Hf. apply Hsub. now right. }
    cbn [record_updates].
    destruct (negb (String.eqb (field_text old field) (field_text reg field))).
    + destruct (insert_change_refreshed id "updated" field
                  (take 500 (field_text old field))
                  (take 500 (field_text reg field)) s Hopen)
        as (s1 & Hw & Href1).
      destruct (IH s1 (proj1 Href1) Hsub')
        as (detected & s' & added & Hrun & Href & Hall & Hlen).
      unfold mbind. rewrite Hw, Hrun.
      eexists _, s', (_ :: added). split; [reflexivity|].
      split; [exact (refreshed_trans _ _ _ _ _ _ _ Href1 Href)|].
      split; [|cbn [length]; lia].
      constructor; [|exact Hall].
      split; [reflexivity|]. right. split; [reflexivity|].
      exists field, (take 500 (field_text old field)),
        (take 500 (field_text reg field)).
      split; [apply Hsub; now left|].
      repeat split; try reflexivity; apply length_take.
    + destruct (IH s Hopen Hsub')
        as (detected & s' & added & Hrun & Href & Hall & Hlen).
      exists detected, s', added.
      split; [exact Hrun|]. split; [exact Href|].
      split; [exact Hall | cbn [length]; lia].
Qed.

Lemma insert_regulation_refreshed
    (title chapter subchapter part section_range description url status
       status_reason : pyval) (s : session) :
  closed s = false ->
  exists s' row,
    execute_write
      (insert_regulation title chapter subchapter part section_range
         description url status status_reason) s
    = (Ok (regulations_seq (current s) + 1)%Z, s')
    /\ refreshed s s' [row] []
    /\ row !! "id" = Some (PyInt (regulations_seq (current s) + 1))
    /\ row !! "status" = Some (text_affinity status).
Proof.
  intros Hopen. rewrite (execute_write_open _ s Hopen).
  eexists _, _. split; [reflexivity|].
  split.
  - unfold refreshed. rewrite app_nil_r. repeat split; reflexivity.
  - split; reflexivity.
Qed.

Lemma record_added_refreshed (reg : dict) (id : Z) (s s' : session)
    (detected : list dict) :
  closed s = false ->
  record_added reg id s = (Ok detected, s') ->
  exists added,
    refreshed s s' [] added /\ Forall (change_row_ok id) added
    /\ (length added <= 1)%nat.
Proof.
  intros Hopen. unfold record_added, mbind, lift.
  destruct (py_concat _ ": ") as [label|]; [|discriminate].
  destruct (py_take 100 _) as [description|]; [|discriminate].
  destruct (insert_change_refreshed id "added" "regulation" ""
              (label +:+ description) s Hopen) as (s1 & Hw & Href).
  rewrite Hw. intros [= _ <-].
  eexists. split; [exact Href|]. split; [|reflexivity].
  constructor; [|constructor].
  split; [reflexivity|]. left. repeat split; reflexivity.
Qed.

(** One pass of the loop that gets through stores one row, with the next id
    and a decided status, and writes change rows for that id only. *)
Lemma refresh_record_refreshed (scraper : RegulationScraper)
    (existing_regs : gmap string dict) (reg : dict) (s s' : session)
    (detected : list dict) :
  closed s = false ->
  refresh_record scraper existing_regs reg s = (Ok detected, s') ->
  exists row added,
    refreshed s s' [row] added
    /\ stored_ok (regulations_seq (current s) + 1) row
    /\ Forall (change_row_ok (regulations_seq (current s) + 1)) added
    /\ (length added <= 4)%nat.
Proof.
  intros Hopen. unfold refresh_record, mbind, lift.
  destruct (prepare scraper reg) as [reg'|] eqn:Hprep; [|discriminate].
  destruct (prepare_status _ _ _ Hprep) as (status & Hstatus & Hdecided).
  destruct (lookup_key reg') as [key|]; [|discriminate].
  match goal with
  | |- context [execute_write (insert_regulation ?a ?b ?c ?d ?e ?f ?g ?h ?i) s] =>
      destruct (insert_regulation_refreshed a b c d e f g h i s Hopen)
        as (s1 & row & Hw & Href1 & Hid & Hst)
  end.
  rewrite Hw.
  assert (Hrow : stored_ok (regulations_seq (current s) + 1) row).
  { split; [exact Hid|]. exists status. split; [|exact Hdecided].
    rewrite Hst. unfold get. now rewrite Hstatus. }
  assert (Hadded : forall cd s2,
             record_added reg' (regulations_seq (current s) + 1) s1 = (Ok cd, s2) ->
             exists row0 added,
               refreshed s s2 [row0] added
               /\ stored_ok (regulations_seq (current s) + 1) row0
               /\ Forall (change_row_ok (regulations_seq (current s) + 1)) added
               /\ (length added <= 4)%nat).
  { intros cd s2 Hrun.
    destruct (record_added_refreshed _ _ _ _ _ (proj1 Href1) Hrun)
      as (added & Href3 & Hall & Hlen).
    exists row, added. split; [exact (refreshed_trans _ _ _ _ _ _ _ Href1 Href3)|].
    split; [exact Hrow|]. split; [exact Hall | lia]. }
  destruct (existing_regs !! key) as [old|]; [|apply Hadded].
  destruct (dict_truthy old); [|apply Hadded].
  destruct (record_updates_refreshed old reg' (regulations_seq (current s) + 1)
              fields_to_check s1 (proj1 Href1) (fun f H => H))
    as (cd & s2 & added & Hrun & Href2 & Hall & Hlen).
  rewrite Hrun. intros [= _ <-].
  exists row, added. split; [exact (refreshed_trans _ _ _ _ _ _ _ Href1 Href2)|].
  split; [exact Hrow|]. split; [exact Hall | exact Hlen].
Qed.

Lemma ids_from_cons (first : Z) (row : dict) (rows : list dict) :
  stored_ok first row -> ids_from (first + 1) rows -> ids_from first (row :: rows).
Proof.
  intros Hrow Hrows [|k] r.
  - intros [= <-]. now rewrite Z.add_0_r.
  - intros Hk. replace (first + Z.of_nat (S k))%Z with (first + 1 + Z.of_nat k)%Z by lia.
    now apply Hrows.
Qed.

Lemma changes_refer_app (first : Z) (row : dict) (rows added1 added2 : list dict) :
  Forall (change_row_ok first) added1 ->
  changes_refer (first + 1) rows added2 ->
  changes_refer first (row :: rows) (added1 ++ added2).
Proof.
  intros H1 H2. unfold changes_refer. apply Forall_app. split.
  - eapply List.Forall_impl; [|exact H1]. intros change Hc.
    exists 0%nat, row. split; [reflexivity|]. now rewrite Z.add_0_r.
  - eapply List.Forall_impl; [|exact H2]. intros change (k & r & Hk & Hc).
    exists (S k), r. split; [exact Hk|].
    now replace (first + Z.of_nat (S k))%Z with (first + 1 + Z.of_nat k)%Z by lia.
Qed.

(** The loop that gets through stores one row for each record, in the
    order of the records and with ids that count up, and every change row
    it writes belongs to one of these rows. *)
Lemma refresh_loop_refreshed (scraper : RegulationScraper)
    (existing_regs : gmap string dict) (regulations : list dict)
    (s s' : session) (detected : list dict) :
  closed s = false ->
  refresh_loop scraper existing_regs regulations s = (Ok detected, s') ->
  exists rows added,
    refreshed s s' rows added
    /\ length rows = length regulations
    /\ ids_from (regulations_seq (current s) + 1) rows
    /\ changes_refer (regulations_seq (current s) + 1) rows added
    /\ (length added <= 4 * length regulations)%nat.
Proof.
  revert s s' detected. induction regulations as [|reg regulations IH];
    intros s s' detected Hopen.
  - intros [= _ <-]. exists [], []. split; [now apply refreshed_refl|].
    split; [reflexivity|]. split; [intros k row; discriminate|].
    split; [constructor | reflexivity].
  - cbn [refresh_loop]. unfold mbind.
    destruct (refresh_record scraper existing_regs reg s) as [[cd|] s1] eqn:Hstep;
      [|discriminate].
    destruct (refresh_record_refreshed _ _ _ _ _ _ Hopen Hstep)
      as (row & added1 & Href1 & Hrow & Hall1 & Hlen1).
    destruct (refresh_loop scraper existing_regs regulations s1) as [[cd'|] s2] eqn:Hrest;
      [|discriminate].
    destruct (IH _ _ _ (proj1 Href1) Hrest)
      as (rows & added2 & Href2 & Hlen & Hids & Hrefs & Hlen2).
    intros [= _ <-].
    assert (Hseq : (regulations_seq (current s1) = regulations_seq (current s) + 1)%Z).
    { destruct Href1 as (_ & _ & Hq & _). exact Hq. }
    rewrite Hseq in Hids, Hrefs.
    exists (row :: rows), (added1 ++ added2).
    split; [exact (refreshed_trans _ _ _ _ _ _ _ Href1 Href2)|].
    split; [cbn [length]; now rewrite Hlen|].
    split; [now apply ids_from_cons|].
    split; [now apply changes_refer_app|].
    rewrite length_app. cbn [length]. lia.
Qed.

Lemma replace_store_refreshed (scraper : RegulationScraper)
    (regulations : list dict) (db : database) (detected : list dict)
    (s' : session) :
  replace_store scraper regulations (connect db) = (Ok detected, s') ->
  exists added,
    closed s' = false
    /\ length (Store.regulations (current s')) = length regulations
    /\ ids_from (regulations_seq db + 1) (Store.regulations (current s'))
    /\ regulations_seq (current s')
       = (regulations_seq db + Z.of_nat (length regulations))%Z
    /\ regulation_changes (current s') = regulation_changes db ++ added
    /\ changes_refer (regulations_seq db + 1) (Store.regulations (current s')) added
    /\ (length added <= 4 * length regulations)%nat.
Proof.
  unfold replace_store, mbind. cbn [execute_select connect closed].
  change (current (connect db)) with db. unfold lift.
  destruct (index_existing _ ∅) as [existing_regs|]; [|discriminate].
  change (execute_write delete_regulations (connect db))
    with (Ok tt, after_delete db).
  intros Hloop.
  destruct (refresh_loop_refreshed _ _ _ (after_delete db) _ _ eq_refl Hloop)
    as (rows & added & (Hc & Hr & Hq & Hch) & Hlen & Hids & Hrefs & Hn).
  change (regulations_seq (current (after_delete db))) with (regulations_seq db)
    in Hids, Hrefs, Hq.
  change (Store.regulations (current (after_delete db))) with (@nil dict) in Hr.
  change (regulation_changes (current (after_delete db)))
    with (regulation_changes db) in Hch.
  cbn [app] in Hr. exists added. rewrite Hr, Hq, Hlen. auto 10.
Qed.


(** X12.  A refresh that completes only appends to the change table, at
    most four rows for each incoming record, and every row it appends
    carries the id of a regulation of the new table: an "added" row for the
    regulation as a whole, or an "updated" row for one of the four compared
    fields with both values cut to 500 characters. *)
Theorem completed_refresh_change_rows (scraper : RegulationScraper)
    (regulations : list dict) (db : database) (detected : list dict)
    (s' : session) :
  replace_store scraper regulations (connect db) = (Ok detected, s') ->
  exists added,
    regulation_changes (current s') = regulation_changes db ++ added
    /\ changes_refer (regulations_seq db + 1) (Store.regulations (current s')) added
    /\ (length added <= 4 * length regulations)%nat.
Proof.
  intros Hdone.
  destruct (replace_store_refreshed _ _ _ _ _ Hdone)
    as (added & _ & _ & _ & _ & Hch & Hrefs & Hn).
  exists added. auto.
Qed.

(** X13.  Stored regulations that no incoming record matches play no part
    in change detection: two previous mappings that agree on the lookup
    keys of the incoming records make the refresh do the same, so a
    regulation that has disappeared is never reported. *)
Theorem unmatched_rows_not_reported (scraper : RegulationScraper)
    (existing_regs existing_regs' : gmap string dict) (regulations : list dict)
    (s : session) :
  (forall reg reg' key,
     In reg regulations ->
     prepare scraper reg = Ok reg' ->
     lookup_key reg' = Ok key ->
     existing_regs !! key = existing_regs' !! key) ->
  refresh_loop scraper existing_regs regulations s
  = refresh_loop scraper existing_regs' regulations s.
Proof.
  revert s. induction regulations as [|reg regulations IH]; intros s Hagree;
    [reflexivity|].
  assert (Hstep : forall s0, refresh_record scraper existing_regs reg s0
                             = refresh_record scraper existing_regs' reg s0).
  { intros s0. unfold refresh_record, mbind, lift.
    destruct (prepare scraper reg) as [reg'|] eqn:Hprep; [|reflexivity].
    destruct (lookup_key reg') as [key|] eqn:Hkey; [|reflexivity].
    now rewrite (Hagree reg reg' key (or_introl eq_refl) Hprep Hkey). }
  cbn [refresh_loop]. unfold mbind. rewrite Hstep.
  destruct (refresh_record scraper existing_regs' reg s) as [[cd|] s1];
    [|reflexivity].
  rewrite IH; [reflexivity|].
  intros r r' k Hr. apply Hagree. now right.
Qed.

Lemma index_existing_other_keys (rows : list dict) (m m' : gmap string dict)
    (key : string) :
  (forall row, In row rows -> lookup_key row <> Ok key) ->
  index_existing rows m = Ok m' ->
  m' !! key = m !! key.
Proof.
  revert m. induction rows as [|row rows IH]; intros m Hother.
  - now intros [= <-].
  - cbn [index_existing].
    destruct (lookup_key row) as [k|] eqn:Hk; [|discriminate]. cbn [bind].
    intros Hidx. rewrite (IH _ (fun r Hr => Hother r (or_intror Hr)) Hidx).
    apply lookup_insert_ne. intros ->.
    now apply (Hother row (or_introl eq_refl)).
Qed.

(** X14.  When several stored rows share a lookup key, the last of them is
    the one an incoming record is compared with. *)
Theorem last_row_with_key_wins (rows1 rows2 : list dict) (row : dict)
    (existing_regs : gmap string dict) (key : string) :
  index_existing (rows1 ++ row :: rows2) ∅ = Ok existing_regs ->
  lookup_key row = Ok key ->
  (forall later, In later rows2 -> lookup_key later <> Ok key) ->
  existing_regs !! key = Some row.
Proof.
  intros Hidx Hkey Hlater. revert Hidx.
  generalize (∅ : gmap string dict) as m.
  induction rows1 as [|r rows1 IH]; intros m.
  - cbn [app index_existing]. rewrite Hkey. cbn [bind]. intros Hidx.
    rewrite (index_existing_other_keys _ _ _ key Hlater Hidx).
    apply lookup_insert_eq.
  - cbn [app index_existing].
    destruct (lookup_key r) as [k|]; [|discriminate]. cbn [bind].
    apply IH.
Qed.


Lemma completed_refresh_change_rows_witness :
  exists added,
    regulation_changes (current sample_refreshed)
    = regulation_changes sample_db ++ added
    /\ changes_refer (regulations_seq sample_db + 1)
         (Store.regulations (current sample_refreshed)) added
    /\ (length added <= 4 * length sample_batch)%nat.
Proof.
  apply (completed_refresh_change_rows offline sample_batch sample_db
           sample_detected sample_refreshed).
  vm_compute. reflexivity.
Defined.

Lemma unmatched_rows_not_reported_witness :
  refresh_loop offline sample_existing
    [ incoming "Part 1301" "Registration of manufacturers" ]
    (after_delete sample_db)
  = refresh_loop offline (delete "Part 1|General" sample_existing)
      [ incoming "Part 1301" "Registration of manufacturers" ]
      (after_delete sample_db).
Proof.
  apply (unmatched_rows_not_reported offline sample_existing
           (delete "Part 1|General" sample_existing)).
  intros reg reg' key [<-|[]] Hprep Hkey.
  assert (Hk : (prepared <- prepare offline
                              (incoming "Part 1301" "Registration of manufacturers") ;;
                lookup_key prepared)
               = Ok "Part 1301|Registration of manufacturers")
    by (vm_compute; reflexivity).
  rewrite Hprep in Hk. cbn [bind] in Hk. rewrite Hkey in Hk.
  injection Hk as ->.
  apply (bool_decide_eq_true_1 _ (Decision0 := decide_rel eq _ _)).
  vm_compute. reflexivity.
Defined.

Lemma last_row_with_key_wins_witness :
  colliding_existing !! "Part 1|General"
  = Some (sample_row "Part 1" "General" "Reserved").
Proof.
  apply (last_row_with_key_wins
           [ sample_row "Part 1" "General" "Administrative" ]
           [ sample_row "Part 2" "Other" "Requires Compliance" ]
           (sample_row "Part 1" "General" "Reserved")
           colliding_existing "Part 1|General").
  - assert (Hok : raised (index_existing colliding_rows ∅) = false)
      by (vm_compute; reflexivity).
    change (index_existing colliding_rows ∅ = Ok colliding_existing).
    unfold colliding_existing.
    destruct (index_existing colliding_rows ∅); [reflexivity | discriminate Hok].
  - reflexivity.
  - intros later [<-|[]]. vm_compute. discriminate.
Defined.

Example refresh_ids_ex :
  List.map (fun row => (row !! "id", row !! "part", row !! "status"))
    (Store.regulations (snd (run_update offline sample_batch sample_db)))
  = [ (Some (PyInt 4), Some (PyStr "Part 1301"), Some (PyStr "Requires Compliance"));
      (Some (PyInt 5), Some (PyStr "Part 9"), Some (PyStr "Prohibited")) ].
Proof. vm_compute. reflexivity. Qed.

End RefreshMore.

(** ** The listing endpoints *)

Section ApiFacts.
Import Store Api.

Lemma insert_by_perm {A} (le : A -> A -> bool) (x : A) (l : list A) :
  Permutation (insert_by le x l) (x :: l).
Proof.
  induction l as [|y l IH]; cbn [insert_by]; [reflexivity|].
  destruct (le x y); [reflexivity|].
  rewrite IH. apply perm_swap.
Qed.

(** [ORDER BY] rearranges and neither drops nor repeats a row. *)
Lemma order_by_perm (terms : list (dict -> pyval)) (rows : list dict) :
  Permutation (order_by terms rows) rows.
Proof.
  unfold order_by. induction rows as [|row rows IH]; cbn [foldr]; [reflexivity|].
  rewrite insert_by_perm. now constructor.
Qed.

Lemma sql_compare_antisym (a b : pyval) :
  sql_compare b a = CompOpp (sql_compare a b).
Proof.
  destruct a as [|s|m], b as [|t|n]; cbn [sql_compare CompOpp]; try reflexivity.
  - apply String.compare_antisym.
  - apply Z.compare_antisym.
Qed.

Lemma compare_by_antisym (terms : list (dict -> pyval)) (r1 r2 : dict) :
  compare_by terms r2 r1 = CompOpp (compare_by terms r1 r2).
Proof.
  induction terms as [|t terms IH]; cbn [compare_by]; [reflexivity|].
  rewrite (sql_compare_antisym (t r1) (t r2)).
  destruct (sql_compare (t r1) (t r2)); cbn [CompOpp]; auto.
Qed.

Lemma row_le_total (terms : list (dict -> pyval)) (r1 r2 : dict) :
  row_le terms r1 r2 = false -> row_le terms r2 r1 = true.
Proof.
  unfold row_le. rewrite (compare_by_antisym terms r1 r2).
  now destruct (compare_by terms r1 r2).
Qed.

Lemma insert_by_sorted {A} (le : A -> A -> bool) (x : A) (l : list A) :
  (forall a b, le a b = false -> le b a = true) ->
  Sorted (fun a b => le a b = true) l ->
  Sorted (fun a b => le a b = true) (insert_by le x l).
Proof.
  intros Htotal Hs. induction Hs as [|y l Hs IH Hhd]; cbn [insert_by].
  - repeat constructor.
  - destruct (le x y) eqn:Hxy.
    + constructor; [now constructor | now constructor].
    + constructor; [exact IH|].
      destruct l as [|z l]; cbn [insert_by].
      * constructor. now apply Htotal.
      * destruct (le x z); constructor; [now apply Htotal|].
        now inversion Hhd.
Qed.

(** [ORDER BY] leaves each row before the next in the order of its terms. *)
Lemma order_by_sorted (terms : list (dict -> pyval)) (rows : list dict) :
  Sorted (fun r1 r2 => row_le terms r1 r2 = true) (order_by terms rows).
Proof.
  unfold order_by. induction rows as [|row rows IH]; cbn [foldr]; [constructor|].
  apply insert_by_sorted; [apply row_le_total | exact IH].
Qed.

Lemma sorted_map {A B} (R : B -> B -> Prop) (f : A -> B) (l : list A) :
  Sorted (fun a b => R (f a) (f b)) l -> Sorted R (List.map f l).
Proof.
  induction 1 as [|x l Hs IH Hhd]; cbn [List.map]; constructor; auto.
  destruct Hhd; cbn [List.map]; constructor; auto.
Qed.

Lemma dict_of_row_column (name : string) (row : dict) :
  In name regulations_columns ->
  column name (dict_of_row regulations_columns row) = column name row.
Proof.
  unfold regulations_columns. intros Hin.
  repeat (destruct Hin as [<-|Hin];
          [unfold column, get, dict_of_row; simpl; by simplify_map_eq|]).
  destruct Hin.
Qed.

End ApiFacts.
